(** * Agent Hub: registration, invocation relay and health tracking

    A shallow embedding of the agent API of [main.py] (the handlers
    [register_agent], [test_agent], [stream_agent] and
    [check_agent_health]) together with the properties of the
    specification that concern them.

    Conventions.
    - A Python [str] is a [string]: the bytes of its UTF-8 encoding.  The
      only characters the handlers inspect are ASCII (["/"], ["x"], ["X"],
      ["-"]), and no byte of a multi-byte UTF-8 sequence is an ASCII byte.
    - A value parsed from JSON (a card, a response body) is a [json].
    - The database session is the list of rows of the [agents] table,
      threaded explicitly through every handler.
    - What the outside world does (the remote agent's answers, the clock,
      the random message id) is an argument of the handler. *)

From Stdlib Require Import ZArith Ascii String.
From stdpp Require Import base option list strings gmap fin_maps sorting pretty.

Local Open Scope string_scope.
Local Open Scope Z_scope.

(** ** Python string primitives *)

Module Py.

(** [c in chars] for a one-character string [c]. *)
Fixpoint char_in (c : ascii) (chars : string) : bool :=
  match chars with
  | EmptyString => false
  | String d rest => if Ascii.eqb c d then true else char_in c rest
  end.

(** [s.rstrip(chars)]: every trailing character that belongs to [chars]
    is removed. *)
Fixpoint rstrip (chars : string) (s : string) : string :=
  match s with
  | EmptyString => EmptyString
  | String c rest =>
      match rstrip chars rest with
      | EmptyString => if char_in c chars then EmptyString else String c EmptyString
      | String d kept => String c (String d kept)
      end
  end.

(** [c.lower()] on an ASCII letter; every other byte is left alone. *)
Definition lower_char (c : ascii) : ascii :=
  let n := N_of_ascii c in
  if ((65 <=? n) && (n <=? 90))%N then ascii_of_N (n + 32) else c.

(** [s.lower()].  Only the first two characters of the result are ever
    looked at ([startswith("x-")]): no character other than ["X"] and
    ["x"] lowercases to ["x"], and none other than ["-"] to ["-"]. *)
Fixpoint lower (s : string) : string :=
  match s with
  | EmptyString => EmptyString
  | String c rest => String (lower_char c) (lower rest)
  end.

(** [s.startswith(p)]. *)
Fixpoint startswith (s p : string) {struct p} : bool :=
  match p with
  | EmptyString => true
  | String b p' =>
      match s with
      | EmptyString => false
      | String a s' => Ascii.eqb a b && startswith s' p'
      end
  end.

End Py.

(** ** JSON values

    What [json.loads] returns.  An object is the list of the items of the
    resulting [dict], so its keys are distinct.  Numbers are integers: a
    document with a number that is not an integer is outside this model. *)

#[warnings="-register-all"] Inductive json : Type :=
| JNull
| JBool (b : bool)
| JNumber (n : Z)
| JString (s : string)
| JArray (items : list json)
| JObject (fields : list (string * json)).

Module Json.

(** [key in d] for a [dict] given by its items. *)
Fixpoint lookup (key : string) (fields : list (string * json)) : option json :=
  match fields with
  | [] => None
  | (k, v) :: rest => if String.eqb k key then Some v else lookup key rest
  end.

(** [d.get(key)]: [None] (JSON [null]) when the key is missing. *)
Definition get (key : string) (fields : list (string * json)) : json :=
  default JNull (lookup key fields).

End Json.

(** ** Outbound header construction *)

Record AgentTestRequest := {
  message : string;
  openai_api_key : option string;
  openai_base_url : option string;
  openai_model : option string;
  tavily_api_key : option string;
  custom_headers : option (list (string * string))
}.

(** [key if key.lower().startswith("x-") else f"X-{key}"] *)
Definition header_key (key : string) : string :=
  if Py.startswith (Py.lower key) "x-" then key else "X-" +:+ key.

(** [if field: headers[name] = field] -- [None] and the empty string are
    both falsy. *)
Definition set_if_truthy (name : string) (field : option string)
    (headers : gmap string string) : gmap string string :=
  match field with
  | Some (String c rest) => <[name := String c rest]> headers
  | _ => headers
  end.

(** The loop over [req.custom_headers.items()], in the dict's order. *)
Definition add_custom_headers (custom : list (string * string))
    (headers : gmap string string) : gmap string string :=
  foldl (fun h kv => <[header_key kv.1 := kv.2]> h) headers custom.

(** The value the loop leaves under [name], if it writes there at all:
    that of the last entry whose key is sent as [name]. *)
Definition custom_value (name : string) (custom : list (string * string))
    : option string :=
  foldl (fun found kv => if String.eqb (header_key kv.1) name then Some kv.2 else found)
        None custom.

(** A key that begins with [x-] or [X-]. *)
Definition x_prefixed (key : string) : Prop :=
  exists c rest, key = String c (String "-" rest) /\ (c = "x" \/ c = "X")%char.

(** The header names the relays set from the credential fields of the
    request, before the custom headers. *)
Definition credential_header_names : list string :=
  ["X-OpenAI-API-Key"; "X-OpenAI-Base-URL"; "X-OpenAI-Model"; "X-Tavily-API-Key"].

(** Everything after the initial dict literal: the four optional
    credentials, then the custom headers. *)
Definition fill_headers (req : AgentTestRequest)
    (headers : gmap string string) : gmap string string :=
  let headers := set_if_truthy "X-OpenAI-API-Key" (openai_api_key req) headers in
  let headers := set_if_truthy "X-OpenAI-Base-URL" (openai_base_url req) headers in
  let headers := set_if_truthy "X-OpenAI-Model" (openai_model req) headers in
  let headers := set_if_truthy "X-Tavily-API-Key" (tavily_api_key req) headers in
  match custom_headers req with
  | Some custom => add_custom_headers custom headers
  | None => headers
  end.

(** Headers of [test_agent]. *)
Definition test_headers (req : AgentTestRequest) : gmap string string :=
  fill_headers req {[ "Content-Type" := "application/json" ]}.

(** Headers of [stream_agent]. *)
Definition stream_headers (req : AgentTestRequest) : gmap string string :=
  fill_headers req
    (<["Accept" := "text/event-stream"]> {[ "Content-Type" := "application/json" ]}).

(** ** Exceptions *)

(** The exception classes the handlers can meet.  [httpx.HTTPError] is the
    base class of the first two only. *)
Inductive exn : Type :=
| HTTPStatusError (status : Z)      (* raised by [raise_for_status] *)
| TransportError (msg : string)     (* connection refused, timeout, read error *)
| InvalidURL (msg : string)         (* [httpx.InvalidURL], a plain [Exception] *)
| JSONDecodeError (msg : string)    (* raised by [resp.json()] *)
| UnicodeDecodeError (msg : string) (* raised by [bytes.decode()] *)
| MultipleResultsFound              (* raised by [scalar_one_or_none] *)
| DBAPIError                        (* sqlalchemy's wrapper of a driver error *)
| OverflowError                     (* an integer too large for the driver *)
| TypeError
| AttributeError.

(** [isinstance(e, httpx.HTTPError)] *)
Definition is_HTTPError (e : exn) : bool :=
  match e with
  | HTTPStatusError _ | TransportError _ => true
  | _ => false
  end.

(** A computation that returns a value or raises. *)
Inductive py (A : Type) : Type :=
| Value (a : A)
| Raise (e : exn).
Arguments Value {A} a.
Arguments Raise {A} e.

#[global] Instance py_ret : MRet py := fun A a => Value a.

#[global] Instance py_bind : MBind py := fun A B k m =>
  match m with
  | Value a => k a
  | Raise e => Raise e
  end.

(** A [for] loop that appends one item per iteration and stops at the
    first exception. *)
Fixpoint py_for {A B} (f : A -> py B) (l : list A) : py (list B) :=
  match l with
  | [] => Value []
  | a :: rest => b ← f a; bs ← py_for f rest; Value (b :: bs)
  end.

(** What a handler hands back to the framework: a value, an
    [HTTPException] it raised itself, or an exception it let escape. *)
Inductive result (A : Type) : Type :=
| Return (a : A)
| HTTPException (status_code : Z) (detail : string)
| Uncaught (e : exn).
Arguments Return {A} a.
Arguments HTTPException {A} status_code detail.
Arguments Uncaught {A} e.

Definition is_Return {A} (r : result A) : bool :=
  match r with Return _ => true | _ => false end.

(** ** The remote side: httpx responses *)

Module Httpx.

(** A fully read response.  [json_body] is what [resp.json()] gives: the
    parsed document, or the decoder's complaint. *)
Record Response := {
  status_code : Z;
  json_body : string + json
}.

(** [resp.is_success]: a 2xx status. *)
Definition is_success (status : Z) : bool :=
  (200 <=? status) && (status <=? 299).

(** [resp.raise_for_status()]: raises for every status that is not 2xx. *)
Definition raise_for_status (resp : Response) : py unit :=
  if is_success (status_code resp) then Value tt
  else Raise (HTTPStatusError (status_code resp)).

(** A response opened with [client.stream].  [aread_decode] is
    [(await resp.aread()).decode()]; [lines] are the lines
    [resp.aiter_lines()] delivers, and [broken] the exception it raises
    after them, if the connection fails mid-stream. *)
Record StreamResponse := {
  stream_status_code : Z;
  aread_decode : py string;
  lines : list string;
  broken : option exn
}.

(** The network as the handlers see it. *)
Record Client := {
  get : string -> py Response;
  post : string -> json -> gmap string string -> py Response;
  stream : string -> json -> gmap string string -> py StreamResponse
}.

(** [resp.json()] *)
Definition json (resp : Response) : py json :=
  match json_body resp with
  | inr doc => Value doc
  | inl msg => Raise (JSONDecodeError msg)
  end.

End Httpx.

(** Everything a handler reads from outside its arguments. *)
Record World := {
  client : Httpx.Client;
  utcnow : Z;          (* [datetime.utcnow()] as called by the handler *)
  utcnow_default : Z;  (* [datetime.utcnow] as the column default at insert *)
  uuid4 : string       (* [str(uuid.uuid4())] *)
}.

(** ** Rows of the [users] and [agents] tables *)

Module User.
Record t := { id : Z; username : string }.
End User.

Module Agent.

(** The card-derived text columns hold a string or NULL ([JNull]);
    [skills] is the JSON column. *)
Record t := {
  id : Z;
  url : string;
  name : json;
  description : json;
  version : json;
  skills : list json;
  provider : json;
  documentation_url : json;
  user_id : Z;
  registered_at : Z;
  last_health_check : option Z;
  is_healthy : bool
}.

(** [agent.is_healthy = healthy; agent.last_health_check = now] *)
Definition set_health (healthy : bool) (now : Z) (a : t) : t :=
  {| id := id a; url := url a; name := name a; description := description a;
     version := version a; skills := skills a; provider := provider a;
     documentation_url := documentation_url a; user_id := user_id a;
     registered_at := registered_at a;
     last_health_check := Some now; is_healthy := healthy |}.

End Agent.

(** ** The database session *)

Module Db.

(** [select(Agent).where(Agent.id == agent_id)] *)
Definition where_id (agent_id : Z) (db : list Agent.t) : list Agent.t :=
  List.filter (fun row => Agent.id row =? agent_id) db.

(** [select(Agent).where(Agent.url == url)] *)
Definition where_url (url : string) (db : list Agent.t) : list Agent.t :=
  List.filter (fun row => String.eqb (Agent.url row) url) db.

(** [result.scalar_one_or_none()] *)
Definition scalar_one_or_none {A} (rows : list A) : py (option A) :=
  match rows with
  | [] => Value None
  | [row] => Value (Some row)
  | _ => Raise MultipleResultsFound
  end.

(** The key SQLite gives a new row of an [INTEGER PRIMARY KEY] table:
    one more than the largest key in use. *)
Definition next_id (db : list Agent.t) : Z :=
  1 + foldr Z.max 0 (map Agent.id db).

(** [db.add(agent); await db.commit()] for a new row. *)
Definition add (agent : Agent.t) (db : list Agent.t) : list Agent.t :=
  db ++ [agent].

(** [await db.commit()] after attributes of the loaded object [agent]
    were assigned: the row with its key is rewritten. *)
Definition commit (agent : Agent.t) (db : list Agent.t) : list Agent.t :=
  map (fun row => if Agent.id row =? Agent.id agent then agent else row) db.

End Db.

(** ** Request and response bodies of the API *)

Module AgentRegisterRequest.
Record t := { url : string }.
End AgentRegisterRequest.

Module AgentResponse.
Record t := {
  id : Z;
  url : string;
  name : json;
  description : json;
  version : json;
  skills : list json;
  provider : json;
  documentation_url : json;
  registered_by : string;
  registered_at : Z;   (* rendered with [isoformat()] *)
  is_healthy : bool
}.
End AgentResponse.

(** ** Text columns

    [name], [description], [version], [provider] and [documentation_url]
    are [String]/[Text] columns of a SQLite table.  The value assigned to
    the attribute is bound as a parameter of the INSERT when the session
    commits, and the attribute is read back from the row by
    [db.refresh]. *)

(** What a text column holds after the value [v] was stored in it: a
    string as it is, [None] as NULL, a number in its text form, a boolean
    as the text of the integer it is. *)
Definition text_form (v : json) : json :=
  match v with
  | JBool b => JString (if b then "1" else "0")
  | JNumber n => JString (pretty n)
  | other => other
  end.

(** The integers the driver can bind: those of 64 bits. *)
Definition in_int64 (n : Z) : bool :=
  (-9223372036854775808 <=? n) && (n <=? 9223372036854775807).

(** Binding [v] to a text column and reading it back.  The driver binds
    [None], integers, strings and nothing else that a card can hold: a
    list or a dict is refused, an integer beyond 64 bits overflows. *)
Definition bind_text (v : json) : py json :=
  match v with
  | JArray _ | JObject _ => Raise DBAPIError
  | JNumber n => if in_int64 n then Value (text_form v) else Raise OverflowError
  | JNull | JBool _ | JString _ => Value (text_form v)
  end.

(** The same, as a relation between the card's value and the column. *)
Inductive stored_text : json -> json -> Prop :=
| stored_null : stored_text JNull JNull
| stored_string s : stored_text (JString s) (JString s)
| stored_number n :
    -9223372036854775808 <= n <= 9223372036854775807 ->
    stored_text (JNumber n) (JString (pretty n))
| stored_true : stored_text (JBool true) (JString "1")
| stored_false : stored_text (JBool false) (JString "0").

(** ** Projection of a card *)

(** [for x in v]: the items Python iterates over, for a value that came
    out of [json.loads]: the elements of a list, the keys of a dict, the
    characters of a string; anything else is not iterable. *)
Definition py_iter (v : json) : py (list json) :=
  match v with
  | JArray items => Value items
  | JObject fields => Value (map (fun kv => JString kv.1) fields)
  | JString s => Value (map (fun c => JString (String c EmptyString)) (list_ascii_of_string s))
  | JNull | JBool _ | JNumber _ => Raise TypeError
  end.

(** The dict appended for one skill of the card. *)
Definition skill_triple (skill : list (string * json)) : json :=
  JObject [("id", Json.get "id" skill);
           ("name", Json.get "name" skill);
           ("description", Json.get "description" skill)].

(** One iteration of the loop; [skill.get] exists on dicts only. *)
Definition skill_info (skill : json) : py json :=
  match skill with
  | JObject fields => Value (skill_triple fields)
  | _ => Raise AttributeError
  end.

(** The [skills] list built by [register_agent]. *)
Definition extract_skills (card : list (string * json)) : py (list json) :=
  match Json.lookup "skills" card with
  | Some v => items ← py_iter v; py_for skill_info items
  | None => Value []
  end.

(** [card.get("provider", {}).get("organization")
      if isinstance(card.get("provider"), dict) else card.get("provider")] *)
Definition extract_provider (card : list (string * json)) : json :=
  match Json.get "provider" card with
  | JObject org => Json.get "organization" org
  | other => other
  end.

(** ** The handlers of the agent API *)

(** The line terminator. *)
Definition LF : string := String "010" EmptyString.

(** A chunk yielded by the event generator of [stream_agent]:
    [SseData j] is the frame made of [data: ], [json.dumps(j)] and two
    line terminators; [Text s] is the string [s] itself. *)
Inductive chunk : Type :=
| SseData (payload : json)
| Text (s : string).

Section Handlers.

(** [str(e)]: the message the raising library gave the exception. *)
Variable str : exn -> string.

(** *** POST /api/agents *)

(** The body of the [try] block: GET the card, check the status, parse. *)
Definition fetch_agent_card (w : World) (agent_card_url : string) : py json :=
  resp ← Httpx.get (client w) agent_card_url;
  _ ← Httpx.raise_for_status resp;
  Httpx.json resp.

(** [Agent(url=url, name=card.get("name"), ...)] as stored by
    [db.add]/[db.commit]/[db.refresh]: the key and [registered_at] are
    filled in by the database; the text columns are bound in the order of
    the table's columns, and the first value the driver refuses makes the
    commit raise; [skills], a JSON column, comes back as it was built. *)
Definition new_agent (w : World) (url : string) (card : json) (user : User.t)
    (db : list Agent.t) : py Agent.t :=
  match card with
  | JObject fields =>
      skills ← extract_skills fields;
      name ← bind_text (Json.get "name" fields);
      description ← bind_text (Json.get "description" fields);
      version ← bind_text (Json.get "version" fields);
      provider ← bind_text (extract_provider fields);
      documentation_url ← bind_text (Json.get "documentationUrl" fields);
      Value {| Agent.id := Db.next_id db;
               Agent.url := url;
               Agent.name := name;
               Agent.description := description;
               Agent.version := version;
               Agent.skills := skills;
               Agent.provider := provider;
               Agent.documentation_url := documentation_url;
               Agent.user_id := User.id user;
               Agent.registered_at := utcnow_default w;
               Agent.last_health_check := Some (utcnow w);
               Agent.is_healthy := true |}
  | JNull | JBool _ | JNumber _ => Raise TypeError   (* ["skills" in card] *)
  | JArray _ | JString _ => Raise AttributeError     (* [card.get] *)
  end.

Definition agent_response (agent : Agent.t) (user : User.t) : AgentResponse.t :=
  {| AgentResponse.id := Agent.id agent;
     AgentResponse.url := Agent.url agent;
     AgentResponse.name := Agent.name agent;
     AgentResponse.description := Agent.description agent;
     AgentResponse.version := Agent.version agent;
     AgentResponse.skills := match Agent.skills agent with [] => [] | l => l end;
     AgentResponse.provider := Agent.provider agent;
     AgentResponse.documentation_url := Agent.documentation_url agent;
     AgentResponse.registered_by := User.username user;
     AgentResponse.registered_at := Agent.registered_at agent;
     AgentResponse.is_healthy := Agent.is_healthy agent |}.

Definition register_agent (w : World) (req : AgentRegisterRequest.t)
    (user : User.t) (db : list Agent.t)
    : result AgentResponse.t * list Agent.t :=
  let url := Py.rstrip "/" (AgentRegisterRequest.url req) in
  match Db.scalar_one_or_none (Db.where_url url db) with
  | Raise e => (Uncaught e, db)
  | Value (Some _) => (HTTPException 400 "Agent already registered", db)
  | Value None =>
      let agent_card_url := url +:+ "/.well-known/agent.json" in
      match fetch_agent_card w agent_card_url with
      | Raise e =>
          if is_HTTPError e then
            (HTTPException 400
               ("Failed to fetch agent card from " +:+ agent_card_url
                  +:+ ": " +:+ str e), db)
          else
            (HTTPException 400 ("Invalid agent card response: " +:+ str e), db)
      | Value card =>
          match new_agent w url card user db with
          | Raise e => (Uncaught e, db)
          | Value agent => (Return (agent_response agent user), Db.add agent db)
          end
      end
  end.

(** *** POST /api/agents/{agent_id}/test *)

(** The JSON-RPC envelope; [rpc_id] and [method] differ between the two
    relays. *)
Definition payload (rpc_id method message_id text : string) : json :=
  JObject [("jsonrpc", JString "2.0");
           ("id", JString rpc_id);
           ("method", JString method);
           ("params", JObject [("message", JObject [
              ("messageId", JString message_id);
              ("role", JString "user");
              ("parts", JArray [JObject [("type", JString "text");
                                         ("text", JString text)]])])])].

Definition test_agent (w : World) (agent_id : Z) (req : AgentTestRequest)
    (db : list Agent.t) : result json * list Agent.t :=
  match Db.scalar_one_or_none (Db.where_id agent_id db) with
  | Raise e => (Uncaught e, db)
  | Value None => (HTTPException 404 "Agent not found", db)
  | Value (Some agent) =>
      let attempt :=
        let headers := test_headers req in
        let body := payload "test-1" "message/send" (uuid4 w) (message req) in
        resp ← Httpx.post (client w) (Agent.url agent) body headers;
        _ ← Httpx.raise_for_status resp;
        Httpx.json resp in
      match attempt with
      | Value response_data =>
          (Return (JObject [("status", JString "success");
                            ("response", response_data)]),
           Db.commit (Agent.set_health true (utcnow w) agent) db)
      | Raise e =>
          if is_HTTPError e then
            (HTTPException 502 ("Agent communication failed: " +:+ str e),
             Db.commit (Agent.set_health false (utcnow w) agent) db)
          else
            (HTTPException 500 ("Unexpected error: " +:+ str e),
             Db.commit (Agent.set_health false (utcnow w) agent) db)
      end
  end.

(** *** POST /api/agents/{agent_id}/stream *)

(** The two [except] clauses of the generator. *)
Definition error_event (e : exn) : chunk :=
  if is_HTTPError e then
    SseData (JObject [("error", JString (str e)); ("type", JString "connection_error")])
  else
    SseData (JObject [("error", JString (str e)); ("type", JString "unexpected_error")]).

(** Everything [event_generator] yields, in order. *)
Definition event_generator (w : World) (agent : Agent.t) (body : json)
    (headers : gmap string string) : list chunk :=
  match Httpx.stream (client w) (Agent.url agent) body headers with
  | Raise e => [error_event e]
  | Value resp =>
      if negb (Httpx.stream_status_code resp =? 200) then
        match Httpx.aread_decode resp with
        | Value error_text =>
            [SseData (JObject [("error", JString error_text);
                               ("status_code", JNumber (Httpx.stream_status_code resp))])]
        | Raise e => [error_event e]
        end
      else
        map (fun line => match line with
                         | String _ _ => Text (line +:+ LF)
                         | EmptyString => Text LF
                         end) (Httpx.lines resp)
        ++ match Httpx.broken resp with
           | Some e => [error_event e]
           | None => []
           end
  end.

Definition stream_agent (w : World) (agent_id : Z) (req : AgentTestRequest)
    (db : list Agent.t) : result (list chunk) * list Agent.t :=
  match Db.scalar_one_or_none (Db.where_id agent_id db) with
  | Raise e => (Uncaught e, db)
  | Value None => (HTTPException 404 "Agent not found", db)
  | Value (Some agent) =>
      let headers := stream_headers req in
      let body := payload "stream-1" "message/stream" (uuid4 w) (message req) in
      (Return (event_generator w agent body headers), db)
  end.

(** *** GET /api/agents/{agent_id}/health *)

Definition check_agent_health (w : World) (agent_id : Z) (db : list Agent.t)
    : result json * list Agent.t :=
  match Db.scalar_one_or_none (Db.where_id agent_id db) with
  | Raise e => (Uncaught e, db)
  | Value None => (HTTPException 404 "Agent not found", db)
  | Value (Some agent) =>
      let attempt :=
        resp ← Httpx.get (client w) (Agent.url agent +:+ "/.well-known/agent.json");
        Httpx.raise_for_status resp in
      match attempt with
      | Value _ =>
          (Return (JObject [("status", JString "healthy");
                            ("url", JString (Agent.url agent))]),
           Db.commit (Agent.set_health true (utcnow w) agent) db)
      | Raise _ =>
          (Return (JObject [("status", JString "unhealthy");
                            ("url", JString (Agent.url agent))]),
           Db.commit (Agent.set_health false (utcnow w) agent) db)
      end
  end.

End Handlers.

(** ** The [users] table *)

Module UserRow.

(** A row of [users].  [api_config] is the nullable JSON column; a dict
    is the list of its items. *)
Record t := {
  id : Z;
  username : string;
  password_hash : string;
  created_at : Z;
  api_config : option (list (string * json))
}.

(** What the agent handlers read of the current user: [user.id] and
    [user.username]. *)
Definition user (row : t) : User.t :=
  {| User.id := id row; User.username := username row |}.

(** [user.api_config = config] *)
Definition set_api_config (config : list (string * json)) (row : t) : t :=
  {| id := id row; username := username row; password_hash := password_hash row;
     created_at := created_at row; api_config := Some config |}.

End UserRow.

(** ** Listing and deleting agents *)

(** [ORDER BY registered_at DESC]: [a] may come before [b]. *)
Definition registered_at_desc (a b : Agent.t) : Prop :=
  Agent.registered_at b <= Agent.registered_at a.

#[global] Instance registered_at_desc_dec a b : Decision (registered_at_desc a b) :=
  Z_le_dec (Agent.registered_at b) (Agent.registered_at a).

(** [select(Agent).order_by(Agent.registered_at.desc())].  SQL leaves the
    order of rows with equal timestamps open; the sort used here is one
    admissible choice. *)
Definition order_by_registered_at_desc (db : list Agent.t) : list Agent.t :=
  merge_sort registered_at_desc db.

(** [{u.id: u.username for u in rows}]: a later row replaces an earlier
    one with the same key. *)
Definition users_map (rows : list UserRow.t) : gmap Z string :=
  foldl (fun m u => <[UserRow.id u := UserRow.username u]> m) ∅ rows.

(** GET /api/agents *)
Definition list_agents (users : list UserRow.t) (db : list Agent.t)
    : list AgentResponse.t :=
  let agents := order_by_registered_at_desc db in
  let user_ids := map Agent.user_id agents in
  let users_result :=
    List.filter (fun u => existsb (Z.eqb (UserRow.id u)) user_ids) users in
  let names := users_map users_result in
  map (fun a =>
         {| AgentResponse.id := Agent.id a;
            AgentResponse.url := Agent.url a;
            AgentResponse.name := Agent.name a;
            AgentResponse.description := Agent.description a;
            AgentResponse.version := Agent.version a;
            AgentResponse.skills := match Agent.skills a with [] => [] | l => l end;
            AgentResponse.provider := Agent.provider a;
            AgentResponse.documentation_url := Agent.documentation_url a;
            AgentResponse.registered_by := default "Unknown" (names !! Agent.user_id a);
            AgentResponse.registered_at := Agent.registered_at a;
            AgentResponse.is_healthy := Agent.is_healthy a |})
      agents.

(** [await db.delete(agent); await db.commit()]: the row with the key of
    [agent] is removed. *)
Definition db_delete (agent : Agent.t) (db : list Agent.t) : list Agent.t :=
  List.filter (fun row => negb (Agent.id row =? Agent.id agent)) db.

(** DELETE /api/agents/{agent_id} *)
Definition delete_agent (user : User.t) (agent_id : Z) (db : list Agent.t)
    : result json * list Agent.t :=
  match Db.scalar_one_or_none (Db.where_id agent_id db) with
  | Raise e => (Uncaught e, db)
  | Value None => (HTTPException 404 "Agent not found", db)
  | Value (Some agent) =>
      if negb (Agent.user_id agent =? User.id user) then
        (HTTPException 403 "Not authorized to delete this agent", db)
      else
        (Return (JObject [("status", JString "deleted")]), db_delete agent db)
  end.

(** ** Configuration (config.py) *)

(** [os.getenv("AUTH_REQUIRED", "true").lower() == "true"], for the value
    of the environment variable, if it is set. *)
Definition AUTH_REQUIRED (env : option string) : bool :=
  String.eqb (Py.lower (default "true" env)) "true".

(** ** Sessions and users (auth.py) *)

(** [if not session_id: return None; return sessions.get(session_id)] *)
Definition get_user_id_from_session (sessions : gmap string Z)
    (session_id : option string) : option Z :=
  match session_id with
  | Some (String c rest) => sessions !! String c rest
  | _ => None
  end.

(** [sessions[session_id] = user_id] for the fresh token [session_id]. *)
Definition create_session (session_id : string) (user_id : Z)
    (sessions : gmap string Z) : string * gmap string Z :=
  (session_id, <[session_id := user_id]> sessions).

(** [sessions.pop(session_id, None)] *)
Definition delete_session (session_id : string) (sessions : gmap string Z)
    : gmap string Z :=
  delete session_id sessions.

(** [select(User).where(User.username == username)], [scalar_one_or_none] *)
Definition get_user_by_username (users : list UserRow.t) (username : string)
    : py (option UserRow.t) :=
  Db.scalar_one_or_none
    (List.filter (fun u => String.eqb (UserRow.username u) username) users).

(** [select(User).where(User.id == user_id)], [scalar_one_or_none] *)
Definition get_user_by_id (users : list UserRow.t) (user_id : Z)
    : py (option UserRow.t) :=
  Db.scalar_one_or_none (List.filter (fun u => UserRow.id u =? user_id) users).

(** What the authentication code takes from outside: the bcrypt library,
    the random token and salt, the clock of the column default. *)
Record AuthWorld := {
  token_urlsafe : string;
  gensalt : string;
  hashpw : string -> string -> py string;
  checkpw : string -> string -> py bool;
  created_now : Z
}.

(** The key SQLite gives the next row of [users]. *)
Definition next_user_id (users : list UserRow.t) : Z :=
  1 + foldr Z.max 0 (map UserRow.id users).

(** [create_user]: hash the password, insert the row; the key, the
    creation time and the empty [api_config] come from the database
    defaults. *)
Definition create_user (aw : AuthWorld) (username password : string)
    (users : list UserRow.t) : py (UserRow.t * list UserRow.t) :=
  password_hash ← hashpw aw password (gensalt aw);
  let user := {| UserRow.id := next_user_id users;
                 UserRow.username := username;
                 UserRow.password_hash := password_hash;
                 UserRow.created_at := created_now aw;
                 UserRow.api_config := Some [] |} in
  Value (user, (users ++ [user])%list).

(** ** The current user (main.py) *)

(** What [get_current_user] hands to a handler: a row of [users], or an
    instance of the [AnonymousUser] class. *)
Inductive current_user : Type :=
| LoggedIn (row : UserRow.t)
| AnonymousUser.

(** [user.id] and [user.username] *)
Definition user_of (u : current_user) : User.t :=
  match u with
  | LoggedIn row => UserRow.user row
  | AnonymousUser => {| User.id := 0; User.username := "anonymous" |}
  end.

Definition get_current_user (auth_required : bool) (sessions : gmap string Z)
    (cookie : option string) (users : list UserRow.t) : result current_user :=
  if negb auth_required then Return AnonymousUser
  else
    match get_user_id_from_session sessions cookie with
    | None | Some 0 => HTTPException 401 "Not authenticated"
    | Some user_id =>
        match get_user_by_id users user_id with
        | Raise e => Uncaught e
        | Value None => HTTPException 401 "User not found"
        | Value (Some user) => Return (LoggedIn user)
        end
    end.

Definition get_optional_user (auth_required : bool) (sessions : gmap string Z)
    (cookie : option string) (users : list UserRow.t)
    : result (option current_user) :=
  if negb auth_required then Return (Some AnonymousUser)
  else
    match get_user_id_from_session sessions cookie with
    | None | Some 0 => Return None
    | Some user_id =>
        match get_user_by_id users user_id with
        | Raise e => Uncaught e
        | Value found => Return (LoggedIn <$> found)
        end
    end.

(** ** The authentication API (main.py) *)

(** What is done to the session cookie of the response. *)
Inductive cookie_action : Type :=
| NoCookie
| SetCookie (value : string) (max_age : Z)
| DeleteCookie.

(** The responses of the form handlers: a page rendered with an error
    message, or a redirect. *)
Inductive page : Type :=
| TemplateResponse (name : string) (error : string) (status_code : Z)
| RedirectResponse (url : string) (status_code : Z) (cookie : cookie_action).

(** [len(s)]: the number of characters, that is of bytes that do not
    continue a multi-byte UTF-8 sequence. *)
Definition is_continuation (c : ascii) : bool :=
  let n := N_of_ascii c in ((128 <=? n) && (n <=? 191))%N.

Fixpoint py_len (s : string) : Z :=
  match s with
  | EmptyString => 0
  | String c rest => (if is_continuation c then 0 else 1) + py_len rest
  end.

(** The state the form handlers work on. *)
Record AuthState := {
  users : list UserRow.t;
  sessions : gmap string Z
}.

(** POST /api/auth/login *)
Definition login (aw : AuthWorld) (username password : string) (st : AuthState)
    : result page * AuthState :=
  let invalid :=
    (Return (TemplateResponse "login.html" "Invalid username or password" 400), st) in
  match get_user_by_username (users st) username with
  | Raise e => (Uncaught e, st)
  | Value None => invalid
  | Value (Some user) =>
      match checkpw aw password (UserRow.password_hash user) with
      | Raise e => (Uncaught e, st)
      | Value false => invalid
      | Value true =>
          let '(session_id, sessions') :=
            create_session (token_urlsafe aw) (UserRow.id user) (sessions st) in
          (Return (RedirectResponse "/" 302 (SetCookie session_id (86400 * 7))),
           {| users := users st; sessions := sessions' |})
      end
  end.

(** POST /api/auth/register *)
Definition register (aw : AuthWorld) (username password : string) (st : AuthState)
    : result page * AuthState :=
  if py_len username <? 3 then
    (Return (TemplateResponse "register.html"
               "Username must be at least 3 characters" 400), st)
  else if py_len password <? 4 then
    (Return (TemplateResponse "register.html"
               "Password must be at least 4 characters" 400), st)
  else
    match get_user_by_username (users st) username with
    | Raise e => (Uncaught e, st)
    | Value (Some _) =>
        (Return (TemplateResponse "register.html" "Username already exists" 400), st)
    | Value None =>
        match create_user aw username password (users st) with
        | Raise e => (Uncaught e, st)
        | Value (user, users') =>
            let '(session_id, sessions') :=
              create_session (token_urlsafe aw) (UserRow.id user) (sessions st) in
            (Return (RedirectResponse "/" 302 (SetCookie session_id (86400 * 7))),
             {| users := users'; sessions := sessions' |})
        end
    end.

(** POST /api/auth/logout *)
Definition logout (cookie : option string) (st : AuthState) : result page * AuthState :=
  let st' :=
    match cookie with
    | Some (String c rest) =>
        {| users := users st;
           sessions := delete_session (String c rest) (sessions st) |}
    | _ => st
    end in
  (Return (RedirectResponse "/login" 302 DeleteCookie), st').

(** ** The settings API (main.py) *)

Module ApiConfigRequest.

Record t := {
  openai_api_key : option string;
  openai_base_url : option string;
  openai_model : option string;
  tavily_api_key : option string;
  langfuse_secret_key : option string;
  langfuse_public_key : option string;
  langfuse_base_url : option string;
  custom_headers : option (list (string * string))
}.

Definition dump_str (field : option string) : json :=
  match field with
  | Some s => JString s
  | None => JNull
  end.

Definition dump_dict (field : option (list (string * string))) : json :=
  match field with
  | Some d => JObject (map (fun kv => (kv.1, JString kv.2)) d)
  | None => JNull
  end.

(** [config.model_dump().items()]: every field, in declaration order. *)
Definition model_dump (config : t) : list (string * json) :=
  [("openai_api_key", dump_str (openai_api_key config));
   ("openai_base_url", dump_str (openai_base_url config));
   ("openai_model", dump_str (openai_model config));
   ("tavily_api_key", dump_str (tavily_api_key config));
   ("langfuse_secret_key", dump_str (langfuse_secret_key config));
   ("langfuse_public_key", dump_str (langfuse_public_key config));
   ("langfuse_base_url", dump_str (langfuse_base_url config));
   ("custom_headers", dump_dict (custom_headers config))].

End ApiConfigRequest.

(** [bool(v)] for a value of a dumped model. *)
Definition py_truthy (v : json) : bool :=
  match v with
  | JNull => false
  | JBool b => b
  | JNumber n => negb (n =? 0)
  | JString s => negb (String.eqb s EmptyString)
  | JArray items => match items with [] => false | _ => true end
  | JObject fields => match fields with [] => false | _ => true end
  end.

(** [{k: v for k, v in config.model_dump().items() if v}] *)
Definition filter_config (config : ApiConfigRequest.t) : list (string * json) :=
  List.filter (fun kv => py_truthy kv.2) (ApiConfigRequest.model_dump config).

(** GET /api/settings: [user.api_config or {}].  The class
    [AnonymousUser] has no attribute [api_config]. *)
Definition get_settings (user : current_user) : result json :=
  match user with
  | LoggedIn row =>
      match UserRow.api_config row with
      | Some (item :: rest) => Return (JObject (item :: rest))
      | _ => Return (JObject [])
      end
  | AnonymousUser => Uncaught AttributeError
  end.

(** PUT /api/settings: the attribute is assigned and the session
    committed; an [AnonymousUser] instance is not a row, so nothing of it
    reaches the table. *)
Definition save_settings (user : current_user) (config : ApiConfigRequest.t)
    (rows : list UserRow.t) : result json * list UserRow.t :=
  let api_config := filter_config config in
  let rows' :=
    match user with
    | LoggedIn row =>
        map (fun r => if UserRow.id r =? UserRow.id row
                      then UserRow.set_api_config api_config row else r) rows
    | AnonymousUser => rows
    end in
  (Return (JObject [("status", JString "ok");
                    ("saved", JArray (map (fun kv => JString kv.1) api_config))]),
   rows').

(** The name a listing should show for the owner of [a], read straight
    off the [users] table: the username of the row with the owner's key,
    and "Unknown" when there is none. *)
Definition owner_name (users : list UserRow.t) (a : Agent.t) : string :=
  match List.find (fun u => UserRow.id u =? Agent.user_id a) users with
  | Some u => UserRow.username u
  | None => "Unknown"
  end.

(** A chunk that relays a line, as opposed to an in-band event. *)
Definition is_text (c : chunk) : bool :=
  match c with Text _ => true | SseData _ => false end.

(** [if field:] for an optional string. *)
Definition truthy (field : option string) : option string :=
  match field with
  | Some (String c rest) => Some (String c rest)
  | _ => None
  end.

(** The request field a credential header is taken from. *)
Definition credential (req : AgentTestRequest) (name : string) : option string :=
  if String.eqb name "X-OpenAI-API-Key" then openai_api_key req
  else if String.eqb name "X-OpenAI-Base-URL" then openai_base_url req
  else if String.eqb name "X-OpenAI-Model" then openai_model req
  else if String.eqb name "X-Tavily-API-Key" then tavily_api_key req
  else None.

(** ** Well-formed tables and cards *)

(** The constraints the schema puts on [agents]: the primary key and the
    [unique=True] URL column. *)
Definition well_formed (db : list Agent.t) : Prop :=
  NoDup (map Agent.id db) /\ NoDup (map Agent.url db).

(** A run of [n] slashes. *)
Fixpoint slashes (n : nat) : string :=
  match n with
  | O => EmptyString
  | S m => String "/" (slashes m)
  end.





(** ** Sample data

    Concrete worlds, rows and requests on which the handlers are run. *)

Module Sample.

Definition str (e : exn) : string :=
  match e with
  | HTTPStatusError _ => "Server error for url"
  | TransportError msg | InvalidURL msg
  | JSONDecodeError msg | UnicodeDecodeError msg => msg
  | MultipleResultsFound => "Multiple rows were found when one or none was required"
| DBAPIError => "Error binding parameter: type is not supported"
| OverflowError => "Python int too large to convert to SQLite INTEGER"
  | TypeError => "object is not iterable"
  | AttributeError => "object has no attribute 'get'"
  end.

(** A remote side that always gives the same three answers. *)
Definition world (get_answer post_answer : py Httpx.Response)
    (stream_answer : py Httpx.StreamResponse) : World :=
  {| client := {| Httpx.get := fun _ => get_answer;
                  Httpx.post := fun _ _ _ => post_answer;
                  Httpx.stream := fun _ _ _ => stream_answer |};
     utcnow := 1700000000;
     utcnow_default := 1700000000;
     uuid4 := "0b7e9f0c-5f3a-4d7e-9a53-2f1f6f0e8c11" |}.

Definition refused : exn := TransportError "All connection attempts failed".

Definition ok (doc : json) : py Httpx.Response :=
  Value {| Httpx.status_code := 200; Httpx.json_body := inr doc |}.

Definition not_json (status : Z) : py Httpx.Response :=
  Value {| Httpx.status_code := status;
           Httpx.json_body := inl "Expecting value: line 1 column 1 (char 0)" |}.

Definition no_stream : py Httpx.StreamResponse := Raise refused.

(** A streamed answer with the given status whose body reads as [body]
    and which delivers no line. *)
Definition stream_of (status : Z) (body : py string) : py Httpx.StreamResponse :=
  Value {| Httpx.stream_status_code := status;
           Httpx.aread_decode := body;
           Httpx.lines := [];
           Httpx.broken := None |}.

Definition bad_utf8 : exn :=
  UnicodeDecodeError
    "'utf-8' codec can't decode byte 0xff in position 0: invalid start byte".

Definition echo_card : json :=
  JObject [("name", JString "Echo");
           ("skills", JArray [JObject [("id", JString "s1"); ("name", JString "echo")]])].


Definition echo_url : AgentRegisterRequest.t :=
  {| AgentRegisterRequest.url := "http://agent.example/a" |}.

Definition alice : User.t := {| User.id := 7; User.username := "alice" |}.

(** The row that registering [http://agent.example/a] with [echo_card]
    leaves in an empty table. *)
Definition echo_agent : Agent.t :=
  {| Agent.id := 1;
     Agent.url := "http://agent.example/a";
     Agent.name := JString "Echo";
     Agent.description := JNull;
     Agent.version := JNull;
     Agent.skills := [JObject [("id", JString "s1"); ("name", JString "echo");
                               ("description", JNull)]];
     Agent.provider := JNull;
     Agent.documentation_url := JNull;
     Agent.user_id := 7;
     Agent.registered_at := 1700000000;
     Agent.last_health_check := Some 1700000000;
     Agent.is_healthy := true |}.

Definition alice_row : UserRow.t :=
  {| UserRow.id := 7; UserRow.username := "alice";
     UserRow.password_hash := "$2b$12$C6UzMDM.H6dfI/f/IKcEeO5Kq0f0pZr1cU0xjv1Q8o6Q2b5J8y3mW";
     UserRow.created_at := 1690000000;
     UserRow.api_config := Some [] |}.

(** The user of a deployment without authentication. *)
Definition anonymous : User.t := {| User.id := 0; User.username := "anonymous" |}.

(** The row a registration of [echo_card] by [anonymous] leaves in an
    empty table. *)
Definition anonymous_agent : Agent.t :=
  {| Agent.id := 1;
     Agent.url := "http://agent.example/a";
     Agent.name := JString "Echo";
     Agent.description := JNull;
     Agent.version := JNull;
     Agent.skills := [JObject [("id", JString "s1"); ("name", JString "echo");
                               ("description", JNull)]];
     Agent.provider := JNull;
     Agent.documentation_url := JNull;
     Agent.user_id := 0;
     Agent.registered_at := 1700000000;
     Agent.last_health_check := Some 1700000000;
     Agent.is_healthy := true |}.

(** A stand-in for bcrypt, good enough to run the form handlers. *)
Definition auth : AuthWorld :=
  {| token_urlsafe := "hN3vX0aQ";
     gensalt := "$2b$12$abcdefghijklmnopqrstuv";
     hashpw := fun password salt => Value (salt +:+ password);
     checkpw := fun password hash =>
                  Value (String.eqb hash ("$2b$12$abcdefghijklmnopqrstuv" +:+ password));
     created_now := 1690000000 |}.

Definition bob_row : UserRow.t :=
  {| UserRow.id := 1; UserRow.username := "bob";
     UserRow.password_hash := "$2b$12$abcdefghijklmnopqrstuvhunter2";
     UserRow.created_at := 1690000000;
     UserRow.api_config := Some [("openai_model", JString "gpt-4o")] |}.

Definition only_model : ApiConfigRequest.t :=
  {| ApiConfigRequest.openai_api_key := Some "";
     ApiConfigRequest.openai_base_url := None;
     ApiConfigRequest.openai_model := Some "local-llm";
     ApiConfigRequest.tavily_api_key := None;
     ApiConfigRequest.langfuse_secret_key := None;
     ApiConfigRequest.langfuse_public_key := None;
     ApiConfigRequest.langfuse_base_url := None;
     ApiConfigRequest.custom_headers := Some [] |}.

Definition hello (custom : option (list (string * string))) : AgentTestRequest :=
  {| message := "hello";
     openai_api_key := Some "sk-test";
     openai_base_url := None;
     openai_model := Some "gpt-4o";
     tavily_api_key := None;
     custom_headers := custom |}.

End Sample.

(** * Properties *)

(** ** Rows and queries *)

Lemma set_health_fields healthy now a :
  Agent.is_healthy (Agent.set_health healthy now a) = healthy
  /\ Agent.last_health_check (Agent.set_health healthy now a) = Some now
  /\ Agent.id (Agent.set_health healthy now a) = Agent.id a
  /\ Agent.url (Agent.set_health healthy now a) = Agent.url a.
Proof. by destruct a. Qed.

Lemma scalar_one_inv {A} (rows : list A) (row : A) :
  Db.scalar_one_or_none rows = Value (Some row) -> rows = [row].
Proof.
  destruct rows as [|r [|r' rest]]; simpl; intros H; try discriminate.
  by inversion H.
Qed.

Lemma scalar_none_inv {A} (rows : list A) :
  Db.scalar_one_or_none rows = Value None -> rows = [].
Proof. by destruct rows as [|r [|r' rest]]. Qed.

Lemma where_id_key agent_id db row :
  In row (Db.where_id agent_id db) -> Agent.id row = agent_id.
Proof.
  unfold Db.where_id. rewrite filter_In. intros [_ H]. by apply Z.eqb_eq.
Qed.

(** Rewriting the row of [agent] changes the answer of a query by key
    only for that key. *)
Lemma where_id_commit agent_id agent db :
  Db.where_id agent_id (Db.commit agent db) =
    if Agent.id agent =? agent_id
    then map (fun _ => agent) (Db.where_id agent_id db)
    else Db.where_id agent_id db.
Proof.
  unfold Db.where_id, Db.commit.
  induction db as [|row db IH]; simpl.
  - by destruct (Agent.id agent =? agent_id).
  - destruct (Agent.id row =? Agent.id agent) eqn:Hrow;
      destruct (Agent.id agent =? agent_id) eqn:Hag;
      destruct (Agent.id row =? agent_id) eqn:Hq;
      simpl; rewrite ?Hag, ?Hq; simpl; rewrite IH, ?Hag; try reflexivity;
      exfalso; lia.
Qed.

Lemma length_commit agent db : length (Db.commit agent db) = length db.
Proof. unfold Db.commit. apply length_map. Qed.

(** After the health columns of a loaded row are committed, the query by
    its key returns the updated row, and every other key is unaffected. *)
Lemma commit_health_lookup agent_id db agent healthy now :
  Db.scalar_one_or_none (Db.where_id agent_id db) = Value (Some agent) ->
  Db.scalar_one_or_none
    (Db.where_id agent_id (Db.commit (Agent.set_health healthy now agent) db))
    = Value (Some (Agent.set_health healthy now agent))
  /\ forall other, other <> agent_id ->
       Db.where_id other (Db.commit (Agent.set_health healthy now agent) db)
       = Db.where_id other db.
Proof.
  intros Hsel. apply scalar_one_inv in Hsel.
  assert (Hid : Agent.id agent = agent_id).
  { apply (where_id_key agent_id db). rewrite Hsel. by left. }
  split.
  - rewrite where_id_commit, Hsel.
    destruct (set_health_fields healthy now agent) as (_ & _ & -> & _).
    rewrite Hid, Z.eqb_refl. reflexivity.
  - intros other Hne. rewrite where_id_commit.
    destruct (set_health_fields healthy now agent) as (_ & _ & -> & _).
    rewrite Hid. destruct (agent_id =? other) eqn:E; [|done].
    apply Z.eqb_eq in E. congruence.
Qed.

(** ** Synchronous invocation *)

(** Runs [test_agent] on an agent found by [Hsel] and splits on what the
    remote side did: a 2xx answer with a body that is not JSON, a 2xx
    answer with a JSON body, another status, an exception of the
    [httpx.HTTPError] family, any other exception. *)
Ltac test_agent_cases Hsel :=
  unfold test_agent; rewrite Hsel; simpl;
  let resp := fresh "resp" in
  let e := fresh "e" in
  destruct (Httpx.post _ _ _ _) as [resp|e] eqn:Hpost; simpl;
  [ unfold Httpx.raise_for_status, Httpx.json;
    destruct (Httpx.is_success _) eqn:Hs; simpl;
    [ destruct (Httpx.json_body resp) as [msg|doc] eqn:Hj; simpl | ]
  | destruct (is_HTTPError e) eqn:He; simpl ].

(** C1: every call of [test_agent] on an existing agent rewrites the row
    with [is_healthy] and [last_health_check] set together: [is_healthy]
    is [true] exactly when the call returned (the remote answered 2xx with
    a JSON body) and [false] when it failed with 502 or 500, and
    [last_health_check] is the current time in both cases; the row is
    persisted, every other column and every other row is as before. *)
Theorem test_agent_health_pair str w agent_id req db agent :
  Db.scalar_one_or_none (Db.where_id agent_id db) = Value (Some agent) ->
  let out := test_agent str w agent_id req db in
  let healthy := is_Return out.1 in
  let row := Agent.set_health healthy (utcnow w) agent in
  out.2 = Db.commit row db
  /\ Db.scalar_one_or_none (Db.where_id agent_id out.2) = Value (Some row)
  /\ Agent.is_healthy row = healthy
  /\ Agent.last_health_check row = Some (utcnow w)
  /\ (forall other, other <> agent_id ->
        Db.where_id other out.2 = Db.where_id other db)
  /\ (healthy = true <->
        exists resp doc,
          Httpx.post (client w) (Agent.url agent)
            (payload "test-1" "message/send" (uuid4 w) (message req))
            (test_headers req) = Value resp
          /\ Httpx.is_success (Httpx.status_code resp) = true
          /\ Httpx.json_body resp = inr doc)
  /\ (healthy = false ->
        exists detail,
          out.1 = HTTPException 502 detail \/ out.1 = HTTPException 500 detail).
Proof.
  intros Hsel out healthy row.
  assert (Hout : out.2 = Db.commit row db).
  { subst row healthy out. by test_agent_cases Hsel. }
  destruct (commit_health_lookup agent_id db agent healthy (utcnow w) Hsel)
    as [Hrow Hothers].
  repeat split.
  - exact Hout.
  - rewrite Hout. exact Hrow.
  - intros other Hne. rewrite Hout. by apply Hothers.
  - subst healthy out. test_agent_cases Hsel; try discriminate.
    intros _. by exists resp, doc.
  - intros (resp & doc & Hpost & Hs & Hj).
    subst healthy out. unfold test_agent. rewrite Hsel. simpl.
    rewrite Hpost. simpl. unfold Httpx.raise_for_status, Httpx.json.
    rewrite Hs. simpl. by rewrite Hj.
  - subst healthy out. test_agent_cases Hsel; try discriminate;
      intros _; eexists; (by left) || (by right).
Qed.

Lemma test_agent_health_pair_witness :
  let w := Sample.world (Raise Sample.refused) (Raise Sample.refused) Sample.no_stream in
  Db.scalar_one_or_none (Db.where_id 1 [Sample.echo_agent]) = Value (Some Sample.echo_agent)
  /\ (test_agent Sample.str w 1 (Sample.hello None) [Sample.echo_agent]).2
     = [Agent.set_health false 1700000000 Sample.echo_agent].
Proof.
  split; [reflexivity|].
  exact (proj1 (test_agent_health_pair Sample.str
    (Sample.world (Raise Sample.refused) (Raise Sample.refused) Sample.no_stream)
    1 (Sample.hello None) [Sample.echo_agent] Sample.echo_agent eq_refl)).
Defined.

(** C9: when the remote agent answers a synchronous invocation with a 2xx
    status and a body that is not JSON, [test_agent] does not succeed: it
    fails with status 500 ("Unexpected error") and persists
    [is_healthy = false] with [last_health_check] set to the current
    time. *)
Theorem test_agent_unparsable_body str w agent_id req db agent resp msg :
  Db.scalar_one_or_none (Db.where_id agent_id db) = Value (Some agent) ->
  Httpx.post (client w) (Agent.url agent)
    (payload "test-1" "message/send" (uuid4 w) (message req))
    (test_headers req) = Value resp ->
  Httpx.is_success (Httpx.status_code resp) = true ->
  Httpx.json_body resp = inl msg ->
  let out := test_agent str w agent_id req db in
  let row := Agent.set_health false (utcnow w) agent in
  out.1 = HTTPException 500 ("Unexpected error: " +:+ str (JSONDecodeError msg))
  /\ out.2 = Db.commit row db
  /\ Db.scalar_one_or_none (Db.where_id agent_id out.2) = Value (Some row)
  /\ Agent.is_healthy row = false
  /\ Agent.last_health_check row = Some (utcnow w).
Proof.
  intros Hsel Hpost Hs Hj out row.
  assert (Hout : out = (HTTPException 500
                          ("Unexpected error: " +:+ str (JSONDecodeError msg)),
                        Db.commit row db)).
  { subst out row. unfold test_agent. rewrite Hsel. simpl. rewrite Hpost. simpl.
    unfold Httpx.raise_for_status, Httpx.json. rewrite Hs. simpl.
    by rewrite Hj. }
  rewrite Hout. simpl. repeat split.
  apply (commit_health_lookup agent_id db agent false (utcnow w) Hsel).
Qed.

Lemma test_agent_unparsable_body_witness :
  let w := Sample.world (Raise Sample.refused) (Sample.not_json 200) Sample.no_stream in
  (test_agent Sample.str w 1 (Sample.hello None) [Sample.echo_agent]).1
  = HTTPException 500 "Unexpected error: Expecting value: line 1 column 1 (char 0)".
Proof.
  exact (proj1 (test_agent_unparsable_body Sample.str
    (Sample.world (Raise Sample.refused) (Sample.not_json 200) Sample.no_stream)
    1 (Sample.hello None) [Sample.echo_agent] Sample.echo_agent _ _
    eq_refl eq_refl eq_refl eq_refl)).
Defined.

(** ** Health check *)

(** C4, as stated, fails: a health check for an id that is not in the
    table raises 404 to the caller. *)
Lemma check_agent_health_unknown_id :
  check_agent_health
    (Sample.world (Sample.ok Sample.echo_card) (Raise Sample.refused) Sample.no_stream)
    1 []
  = (HTTPException 404 "Agent not found", []).
Proof. reflexivity. Qed.

(** C4 (amended): a health check of an existing agent never raises, it
    returns the object [{status, url}] with status "healthy" or
    "unhealthy" and the agent's URL, whatever the probe met; only an
    unknown id is answered with 404. *)
Theorem check_agent_health_total w agent_id db :
  (forall agent,
     Db.scalar_one_or_none (Db.where_id agent_id db) = Value (Some agent) ->
     exists status,
       (status = "healthy" \/ status = "unhealthy")
       /\ (check_agent_health w agent_id db).1
          = Return (JObject [("status", JString status);
                             ("url", JString (Agent.url agent))]))
  /\ (Db.scalar_one_or_none (Db.where_id agent_id db) = Value None ->
      check_agent_health w agent_id db = (HTTPException 404 "Agent not found", db)).
Proof.
  split.
  - intros agent Hsel. unfold check_agent_health. rewrite Hsel. simpl.
    destruct (Httpx.get _ _) as [resp|e]; simpl.
    + unfold Httpx.raise_for_status.
      destruct (Httpx.is_success _); simpl;
        eexists; (split; [|reflexivity]); auto.
    + eexists; (split; [|reflexivity]); auto.
  - intros Hsel. unfold check_agent_health. by rewrite Hsel.
Qed.

Lemma check_agent_health_total_witness :
  let w := Sample.world (Raise Sample.refused) (Raise Sample.refused) Sample.no_stream in
  exists status,
    (status = "healthy" \/ status = "unhealthy")
    /\ (check_agent_health w 1 [Sample.echo_agent]).1
       = Return (JObject [("status", JString status);
                          ("url", JString "http://agent.example/a")]).
Proof.
  exact (proj1 (check_agent_health_total
    (Sample.world (Raise Sample.refused) (Raise Sample.refused) Sample.no_stream)
    1 [Sample.echo_agent]) Sample.echo_agent eq_refl).
Defined.

(** C5, as stated, fails: the probe does not parse the body.  A card
    endpoint that answers 200 with a body that is not JSON makes an
    unhealthy agent healthy. *)
Lemma check_agent_health_ignores_body :
  check_agent_health
    (Sample.world (Sample.not_json 200) (Raise Sample.refused) Sample.no_stream)
    1 [Agent.set_health false 1600000000 Sample.echo_agent]
  = (Return (JObject [("status", JString "healthy");
                      ("url", JString "http://agent.example/a")]),
     [Agent.set_health true 1700000000 Sample.echo_agent]).
Proof. reflexivity. Qed.

(** C5 (amended): the probe of an existing agent GETs the card URL and
    looks at the status only.  A 2xx answer sets [is_healthy = true]
    whether or not its body is JSON; a transport failure or any other
    status sets [is_healthy = false]; in both cases [last_health_check] is
    the current time and the row is persisted. *)
Theorem check_agent_health_probe w agent_id db agent :
  Db.scalar_one_or_none (Db.where_id agent_id db) = Value (Some agent) ->
  let out := check_agent_health w agent_id db in
  let reachable :=
    match Httpx.get (client w) (Agent.url agent +:+ "/.well-known/agent.json") with
    | Value resp => Httpx.is_success (Httpx.status_code resp)
    | Raise _ => false
    end in
  let row := Agent.set_health reachable (utcnow w) agent in
  out.1 = Return (JObject [("status", JString (if reachable then "healthy" else "unhealthy"));
                           ("url", JString (Agent.url agent))])
  /\ out.2 = Db.commit row db
  /\ Db.scalar_one_or_none (Db.where_id agent_id out.2) = Value (Some row)
  /\ Agent.is_healthy row = reachable
  /\ Agent.last_health_check row = Some (utcnow w).
Proof.
  intros Hsel out reachable row.
  assert (Hout : out = (Return (JObject [("status", JString (if reachable then "healthy" else "unhealthy"));
                                         ("url", JString (Agent.url agent))]),
                        Db.commit row db)).
  { subst out row reachable. unfold check_agent_health. rewrite Hsel. simpl.
    destruct (Httpx.get _ _) as [resp|e]; simpl; [|done].
    unfold Httpx.raise_for_status. by destruct (Httpx.is_success _). }
  rewrite Hout. simpl. repeat split.
  apply (commit_health_lookup agent_id db agent reachable (utcnow w) Hsel).
Qed.

Lemma check_agent_health_probe_witness :
  let w := Sample.world (Sample.not_json 503) (Raise Sample.refused) Sample.no_stream in
  (check_agent_health w 1 [Sample.echo_agent]).2
  = [Agent.set_health false 1700000000 Sample.echo_agent].
Proof.
  exact (proj1 (proj2 (check_agent_health_probe
    (Sample.world (Sample.not_json 503) (Raise Sample.refused) Sample.no_stream)
    1 [Sample.echo_agent] Sample.echo_agent eq_refl))).
Defined.

(** ** Streaming invocation *)

(** The scenario of the specification: an agent that answers 500 with the
    body "boom". *)
Example stream_agent_boom :
  stream_agent Sample.str
    (Sample.world (Raise Sample.refused) (Raise Sample.refused)
       (Sample.stream_of 500 (Value "boom")))
    1 (Sample.hello None) [Sample.echo_agent]
  = (Return [SseData (JObject [("error", JString "boom"); ("status_code", JNumber 500)])],
     [Sample.echo_agent]).
Proof. reflexivity. Qed.

(** C3, as stated, fails: when the body of a 500 answer is not valid
    UTF-8, [decode()] raises inside the generator and the only event is
    the "unexpected_error" one, which carries neither the body nor the
    status code. *)
Lemma stream_agent_undecodable_body :
  stream_agent Sample.str
    (Sample.world (Raise Sample.refused) (Raise Sample.refused)
       (Sample.stream_of 500 (Raise Sample.bad_utf8)))
    1 (Sample.hello None) [Sample.echo_agent]
  = (Return [SseData (JObject [
       ("error", JString "'utf-8' codec can't decode byte 0xff in position 0: invalid start byte");
       ("type", JString "unexpected_error")])],
     [Sample.echo_agent]).
Proof. reflexivity. Qed.

(** C3 (amended): when the remote agent's first answer to a streaming
    invocation of an existing agent has a status that is not 2xx, the relay
    yields exactly one event and stops, and the table is left as it was.
    The event is [{"error": <body text>, "status_code": <status>}] when the
    body is read and decoded; when reading or decoding the body raises, it
    is the in-band error event of that exception. *)
Theorem stream_agent_error_status str w agent_id req db agent resp :
  Db.scalar_one_or_none (Db.where_id agent_id db) = Value (Some agent) ->
  Httpx.stream (client w) (Agent.url agent)
    (payload "stream-1" "message/stream" (uuid4 w) (message req))
    (stream_headers req) = Value resp ->
  Httpx.is_success (Httpx.stream_status_code resp) = false ->
  stream_agent str w agent_id req db
  = (Return [match Httpx.aread_decode resp with
             | Value error_text =>
                 SseData (JObject [("error", JString error_text);
                                   ("status_code",
                                    JNumber (Httpx.stream_status_code resp))])
             | Raise e => error_event str e
             end],
     db).
Proof.
  intros Hsel Hstream Hs.
  unfold stream_agent, event_generator. rewrite Hsel. simpl. rewrite Hstream.
  assert (Hne : (Httpx.stream_status_code resp =? 200) = false).
  { apply Z.eqb_neq. intros E. rewrite E in Hs. discriminate. }
  rewrite Hne. simpl. by destruct (Httpx.aread_decode resp).
Qed.

Lemma stream_agent_error_status_witness :
  let w := Sample.world (Raise Sample.refused) (Raise Sample.refused)
             (Sample.stream_of 404 (Value "no such agent")) in
  stream_agent Sample.str w 1 (Sample.hello None) [Sample.echo_agent]
  = (Return [SseData (JObject [("error", JString "no such agent");
                               ("status_code", JNumber 404)])],
     [Sample.echo_agent]).
Proof.
  exact (stream_agent_error_status Sample.str
    (Sample.world (Raise Sample.refused) (Raise Sample.refused)
       (Sample.stream_of 404 (Value "no such agent")))
    1 (Sample.hello None) [Sample.echo_agent] Sample.echo_agent _
    eq_refl eq_refl eq_refl).
Defined.

(** ** Outbound headers *)

Example header_key_foo : header_key "foo" = "X-foo".
Proof. reflexivity. Qed.

Example header_key_X_Foo : header_key "X-Foo" = "X-Foo".
Proof. reflexivity. Qed.

Example header_key_lower_x : header_key "x-trace" = "x-trace".
Proof. reflexivity. Qed.

Lemma lower_char_x c : Py.lower_char c = "x"%char <-> (c = "x" \/ c = "X")%char.
Proof.
  destruct c as [[] [] [] [] [] [] [] []]; vm_compute;
    split; intros H; try discriminate H; auto;
    destruct H as [H|H]; discriminate H.
Qed.

Lemma lower_char_dash c : Py.lower_char c = "-"%char <-> c = "-"%char.
Proof.
  destruct c as [[] [] [] [] [] [] [] []]; vm_compute;
    split; intros H; try discriminate H; auto.
Qed.

(** The case-insensitive test of [header_key] is the structural one. *)
Lemma startswith_lower_x key :
  Py.startswith (Py.lower key) "x-" = true <-> x_prefixed key.
Proof.
  unfold x_prefixed.
  destruct key as [|c [|d rest]]; cbn [Py.startswith Py.lower].
  - split; [discriminate|]. intros (? & ? & ? & _). discriminate.
  - rewrite andb_false_r. split; [discriminate|].
    intros (? & ? & ? & _). discriminate.
  - rewrite andb_true_r, andb_true_iff, !Ascii.eqb_eq.
    rewrite lower_char_x, lower_char_dash. split.
    + intros [Hc ->]. by exists c, rest.
    + intros (c' & rest' & Heq & Hc). inversion Heq; subst. done.
Qed.

Lemma header_key_spec key :
  (x_prefixed key -> header_key key = key)
  /\ (~ x_prefixed key -> header_key key = "X-" +:+ key).
Proof.
  unfold header_key.
  destruct (Py.startswith (Py.lower key) "x-") eqn:E.
  - split; [done|]. intros H. exfalso. apply H. by apply startswith_lower_x.
  - split; [|done]. intros H. apply startswith_lower_x in H. congruence.
Qed.

Lemma custom_value_snoc name custom kv :
  custom_value name (custom ++ [kv]) =
    if String.eqb (header_key kv.1) name then Some kv.2 else custom_value name custom.
Proof. unfold custom_value. by rewrite foldl_snoc. Qed.

(** What the loop over the custom headers leaves under a name. *)
Lemma add_custom_headers_lookup custom headers name :
  add_custom_headers custom headers !! name =
    match custom_value name custom with
    | Some v => Some v
    | None => headers !! name
    end.
Proof.
  induction custom as [|kv custom IH] using rev_ind; [done|].
  rewrite custom_value_snoc. unfold add_custom_headers in *. rewrite foldl_snoc.
  destruct (String.eqb (header_key kv.1) name) eqn:E.
  - apply String.eqb_eq in E. rewrite E. apply lookup_insert_eq.
  - apply String.eqb_neq in E. rewrite lookup_insert_ne by done. apply IH.
Qed.

Lemma custom_value_last name pre key value post :
  header_key key = name ->
  Forall (fun kv => header_key kv.1 <> name) post ->
  custom_value name (pre ++ (key, value) :: post) = Some value.
Proof.
  intros Hkey. induction post as [|kv post IH] using rev_ind; intros Hpost.
  - rewrite custom_value_snoc. simpl. rewrite Hkey. by rewrite String.eqb_refl.
  - rewrite Forall_app, Forall_singleton in Hpost. destruct Hpost as [Hpost Hkv].
    rewrite app_comm_cons, app_assoc, custom_value_snoc.
    apply String.eqb_neq in Hkv. rewrite Hkv. by apply IH.
Qed.

Lemma custom_value_In name custom value :
  custom_value name custom = Some value ->
  exists key, In (key, value) custom /\ header_key key = name.
Proof.
  induction custom as [|[k v] custom IH] using rev_ind; [discriminate|].
  rewrite custom_value_snoc. simpl.
  destruct (String.eqb (header_key k) name) eqn:E.
  - intros [= ->]. apply String.eqb_eq in E.
    exists k. split; [|done]. apply in_or_app. right. by left.
  - intros H. destruct (IH H) as (key & Hin & Hkey).
    exists key. split; [|done]. apply in_or_app. by left.
Qed.

Lemma custom_value_is_Some key value custom :
  In (key, value) custom -> is_Some (custom_value (header_key key) custom).
Proof.
  induction custom as [|[k v] custom IH] using rev_ind; [done|].
  rewrite custom_value_snoc. simpl. intros Hin.
  destruct (String.eqb (header_key k) (header_key key)) eqn:E; [by eexists|].
  apply in_app_or in Hin as [Hin|[Hin|[]]]; [by apply IH|].
  inversion Hin; subst. by rewrite String.eqb_refl in E.
Qed.

(** Both relays end with the loop over the custom headers, so a name the
    loop writes carries the loop's value whatever was there before. *)
Lemma fill_headers_custom req custom headers name value :
  custom_headers req = Some custom ->
  custom_value name custom = Some value ->
  fill_headers req headers !! name = Some value.
Proof.
  intros Hc Hv. unfold fill_headers. rewrite Hc.
  by rewrite add_custom_headers_lookup, Hv.
Qed.

(** No key is sent under a name that does not begin with [x-] or [X-]. *)
Lemma header_key_x_prefixed key : x_prefixed (header_key key).
Proof.
  unfold header_key. destruct (Py.startswith (Py.lower key) "x-") eqn:E.
  - by apply startswith_lower_x.
  - exists "X"%char, key. split; [done|by right].
Qed.

(** C6, as stated, fails: two keys of the mapping can be sent under the
    same name, and then only the later value is carried.  The entry
    ["foo": "a"] is not sent as [X-foo: a] here. *)
Lemma custom_header_collision :
  In ("foo", "a") [("foo", "a"); ("X-foo", "b")]
  /\ header_key "foo" = "X-foo"
  /\ test_headers (Sample.hello (Some [("foo", "a"); ("X-foo", "b")])) !! "X-foo"
     = Some "b"
  /\ stream_headers (Sample.hello (Some [("foo", "a"); ("X-foo", "b")])) !! "X-foo"
     = Some "b".
Proof. repeat split; [by left|vm_compute; reflexivity..]. Qed.

(** C6 (amended): an entry [(key, value)] of the custom-header mapping is
    sent under the name [key] itself when [key] begins with [x-] or [X-],
    and under ["X-" + key] otherwise, with [value] unchanged, provided no
    later entry of the mapping is sent under the same name (the last such
    entry is the one carried).  This holds for both relays. *)
Theorem custom_header_sent req custom pre key value post :
  custom_headers req = Some custom ->
  custom = (pre ++ (key, value) :: post)%list ->
  Forall (fun kv => header_key kv.1 <> header_key key) post ->
  test_headers req !! header_key key = Some value
  /\ stream_headers req !! header_key key = Some value
  /\ (x_prefixed key -> header_key key = key)
  /\ (~ x_prefixed key -> header_key key = "X-" +:+ key).
Proof.
  intros Hc -> Hpost.
  pose proof (custom_value_last (header_key key) pre key value post eq_refl Hpost) as Hv.
  split; [|split].
  - unfold test_headers. by apply (fill_headers_custom req _ _ _ _ Hc).
  - unfold stream_headers. by apply (fill_headers_custom req _ _ _ _ Hc).
  - apply header_key_spec.
Qed.

Lemma custom_header_sent_witness :
  let custom := [("foo", "bar"); ("X-Foo", "bar")] in
  test_headers (Sample.hello (Some custom)) !! "X-foo" = Some "bar"
  /\ stream_headers (Sample.hello (Some custom)) !! "X-foo" = Some "bar".
Proof.
  assert (Hpost : Forall (fun kv : string * string => header_key kv.1 <> header_key "foo")
                         [("X-Foo", "bar")]).
  { apply Forall_singleton. vm_compute. discriminate. }
  pose proof (custom_header_sent
    (Sample.hello (Some [("foo", "bar"); ("X-Foo", "bar")]))
    [("foo", "bar"); ("X-Foo", "bar")] [] "foo" "bar" [("X-Foo", "bar")]
    eq_refl eq_refl Hpost) as (H1 & H2 & _).
  split; [exact H1|exact H2].
Defined.

(** The names [Content-Type] and [Accept] are out of reach of the custom
    headers: every name the loop writes begins with [x-] or [X-]. *)
Lemma custom_never_fixed_plain key :
  header_key key <> "Content-Type" /\ header_key key <> "Accept".
Proof.
  destruct (header_key_x_prefixed key) as (c & rest & -> & _).
  split; discriminate.
Qed.

(** ** Registration *)

Example rstrip_all_slashes :
  Py.rstrip "/" "http://agent.example/a//" = "http://agent.example/a".
Proof. reflexivity. Qed.

Example rstrip_inner_slash : Py.rstrip "/" "http://a/b/c" = "http://a/b/c".
Proof. reflexivity. Qed.

Lemma rstrip_app_slash u : Py.rstrip "/" (u +:+ "/") = Py.rstrip "/" u.
Proof.
  induction u as [|c u IH]; [reflexivity|].
  change (Py.rstrip "/" (String c (u +:+ "/")) = Py.rstrip "/" (String c u)).
  cbn [Py.rstrip]. by rewrite IH.
Qed.

Lemma where_url_add url agent db :
  Db.where_url url (Db.add agent db) =
    (Db.where_url url db ++ if String.eqb (Agent.url agent) url then [agent] else [])%list.
Proof.
  unfold Db.where_url, Db.add. rewrite List.filter_app. simpl.
  by destruct (String.eqb (Agent.url agent) url).
Qed.

(** What a registration that returns has done. *)
Lemma register_agent_Return str w req user db resp db' :
  register_agent str w req user db = (Return resp, db') ->
  exists card agent,
    Db.where_url (Py.rstrip "/" (AgentRegisterRequest.url req)) db = []
    /\ fetch_agent_card w (Py.rstrip "/" (AgentRegisterRequest.url req)
                             +:+ "/.well-known/agent.json") = Value card
    /\ new_agent w (Py.rstrip "/" (AgentRegisterRequest.url req)) card user db
       = Value agent
    /\ resp = agent_response agent user
    /\ db' = Db.add agent db.
Proof.
  unfold register_agent. cbv zeta.
  destruct (Db.scalar_one_or_none _) as [[row|]|e] eqn:Hsel; try discriminate.
  destruct (fetch_agent_card _ _) as [card|e] eqn:Hfetch.
  - destruct (new_agent _ _ _ _ _) as [agent|e] eqn:Hnew; [|discriminate].
    intros [= <- <-]. exists card, agent.
    by apply scalar_none_inv in Hsel.
  - by destruct (is_HTTPError e).
Qed.

(** A registration that does not return leaves the table alone. *)
Lemma register_agent_failed str w req user db :
  is_Return (register_agent str w req user db).1 = false ->
  (register_agent str w req user db).2 = db.
Proof.
  unfold register_agent.
  destruct (Db.scalar_one_or_none _) as [[row|]|e]; try done.
  destruct (fetch_agent_card _ _) as [card|e].
  - by destruct (new_agent _ _ _ _ _).
  - by destruct (is_HTTPError e).
Qed.



Lemma bind_text_Value v v' :
  bind_text v = Value v' -> v' = text_form v /\ stored_text v v'.
Proof.
  destruct v as [|[]|n|s| |]; simpl; try discriminate;
    try (intros [= <-]; split; [reflexivity|constructor]).
  unfold in_int64. destruct (_ && _) eqn:E; [|discriminate].
  intros [= <-]. split; [reflexivity|]. constructor. lia.
Qed.

Lemma new_agent_Value w url card user db agent :
  new_agent w url card user db = Value agent ->
  exists fields skills,
    card = JObject fields
    /\ extract_skills fields = Value skills
    /\ agent = {| Agent.id := Db.next_id db;
                  Agent.url := url;
                  Agent.name := text_form (Json.get "name" fields);
                  Agent.description := text_form (Json.get "description" fields);
                  Agent.version := text_form (Json.get "version" fields);
                  Agent.skills := skills;
                  Agent.provider := text_form (extract_provider fields);
                  Agent.documentation_url :=
                    text_form (Json.get "documentationUrl" fields);
                  Agent.user_id := User.id user;
                  Agent.registered_at := utcnow_default w;
                  Agent.last_health_check := Some (utcnow w);
                  Agent.is_healthy := true |}.
Proof.
  destruct card as [| | | | |fields]; try discriminate. simpl.
  destruct (extract_skills fields) as [skills|e] eqn:Hskills; [|discriminate].
  simpl.
  destruct (bind_text (Json.get "name" fields)) as [v1|e] eqn:H1; [|discriminate].
  destruct (bind_text (Json.get "description" fields)) as [v2|e] eqn:H2;
    [|discriminate].
  destruct (bind_text (Json.get "version" fields)) as [v3|e] eqn:H3; [|discriminate].
  destruct (bind_text (extract_provider fields)) as [v4|e] eqn:H4; [|discriminate].
  destruct (bind_text (Json.get "documentationUrl" fields)) as [v5|e] eqn:H5;
    [|discriminate].
  simpl. intros [= <-].
  apply bind_text_Value in H1 as [-> _], H2 as [-> _], H3 as [-> _],
    H4 as [-> _], H5 as [-> _].
  by exists fields, skills.
Qed.



(** C2: a URL and the same URL followed by a slash have the same
    canonical form, so registering either is the same operation; and once
    a URL is registered, registering it again (with or without the slash,
    by anyone) fails with 400 "Agent already registered" and leaves the
    table, hence the number of rows, as it was. *)
Theorem register_agent_dedup :
  (forall u, Py.rstrip "/" (u +:+ "/") = Py.rstrip "/" u)
  /\ (forall str w u user db,
        register_agent str w {| AgentRegisterRequest.url := u +:+ "/" |} user db
        = register_agent str w {| AgentRegisterRequest.url := u |} user db)
  /\ (forall str w u user db resp db',
        register_agent str w {| AgentRegisterRequest.url := u |} user db
          = (Return resp, db') ->
        forall str' w' user' u',
          u' = u \/ u' = u +:+ "/" ->
          register_agent str' w' {| AgentRegisterRequest.url := u' |} user' db'
            = (HTTPException 400 "Agent already registered", db')
          /\ length (register_agent str' w'
                       {| AgentRegisterRequest.url := u' |} user' db').2
             = length db').
Proof.
  split; [exact rstrip_app_slash|]. split.
  - intros. unfold register_agent. simpl. by rewrite rstrip_app_slash.
  - intros str w u user db resp db' Hreg str' w' user' u' Hu'.
    apply register_agent_Return in Hreg
      as (card & agent & Hnone & _ & Hnew & _ & ->).
    assert (Hurl : Agent.url agent = Py.rstrip "/" u).
    { apply new_agent_Value in Hnew as (fields & skills & _ & _ & ->). done. }
    simpl in Hnone.
    assert (Hcanon : Py.rstrip "/" u' = Py.rstrip "/" u).
    { destruct Hu' as [->| ->]; [done|apply rstrip_app_slash]. }
    assert (Hdup : register_agent str' w'
                     {| AgentRegisterRequest.url := u' |} user' (Db.add agent db)
                   = (HTTPException 400 "Agent already registered", Db.add agent db)).
    { unfold register_agent. simpl. rewrite Hcanon.
      rewrite where_url_add, Hnone, Hurl. simpl. by rewrite String.eqb_refl. }
    split; [apply Hdup|]. by rewrite Hdup.
Qed.

Lemma register_agent_dedup_witness :
  let w := Sample.world (Sample.ok Sample.echo_card) (Raise Sample.refused)
            Sample.no_stream in
  register_agent Sample.str w Sample.echo_url Sample.alice []
    = (Return (agent_response Sample.echo_agent Sample.alice), [Sample.echo_agent])
  /\ register_agent Sample.str w
       {| AgentRegisterRequest.url := "http://agent.example/a/" |} Sample.alice
       [Sample.echo_agent]
     = (HTTPException 400 "Agent already registered", [Sample.echo_agent]).
Proof.
  split; [reflexivity|].
  exact (proj1 (proj2 (proj2 register_agent_dedup) Sample.str
    (Sample.world (Sample.ok Sample.echo_card) (Raise Sample.refused) Sample.no_stream)
    "http://agent.example/a" Sample.alice [] _ _ eq_refl
    Sample.str _ Sample.alice "http://agent.example/a/" (or_intror eq_refl))).
Defined.




(** C8: when the URL is not registered yet and fetching its card fails
    (the endpoint cannot be reached, answers with a status that is not
    2xx, or answers 2xx with a body that is not JSON), registration fails
    with status 400, the detail ends with the message of the exception
    that stopped the fetch, and the table is unchanged; more generally no
    registration that fails changes the table. *)
Theorem register_agent_fetch_failure str w req user db e :
  Db.where_url (Py.rstrip "/" (AgentRegisterRequest.url req)) db = [] ->
  (Httpx.get (client w)
     (Py.rstrip "/" (AgentRegisterRequest.url req) +:+ "/.well-known/agent.json")
   = Raise e
   \/ (exists resp,
         Httpx.get (client w)
           (Py.rstrip "/" (AgentRegisterRequest.url req) +:+ "/.well-known/agent.json")
         = Value resp
         /\ Httpx.is_success (Httpx.status_code resp) = false
         /\ e = HTTPStatusError (Httpx.status_code resp))
   \/ (exists resp msg,
         Httpx.get (client w)
           (Py.rstrip "/" (AgentRegisterRequest.url req) +:+ "/.well-known/agent.json")
         = Value resp
         /\ Httpx.is_success (Httpx.status_code resp) = true
         /\ Httpx.json_body resp = inl msg
         /\ e = JSONDecodeError msg)) ->
  register_agent str w req user db
  = (HTTPException 400
       (if is_HTTPError e then
          "Failed to fetch agent card from "
            +:+ (Py.rstrip "/" (AgentRegisterRequest.url req) +:+ "/.well-known/agent.json")
            +:+ ": " +:+ str e
        else "Invalid agent card response: " +:+ str e),
     db)
  /\ forall str' w' req' user' db',
       is_Return (register_agent str' w' req' user' db').1 = false ->
       (register_agent str' w' req' user' db').2 = db'.
Proof.
  intros Hnone Hfail. split; [|apply register_agent_failed].
  assert (Hfetch : fetch_agent_card w
            (Py.rstrip "/" (AgentRegisterRequest.url req) +:+ "/.well-known/agent.json")
          = Raise e).
  { unfold fetch_agent_card, Httpx.raise_for_status, Httpx.json.
    destruct Hfail as [->|[(resp & -> & Hs & ->)|(resp & msg & -> & Hs & Hj & ->)]];
      simpl; [done| |]; rewrite Hs; simpl; [done|by rewrite Hj]. }
  unfold register_agent. cbv zeta. rewrite Hnone. simpl. rewrite Hfetch.
  by destruct (is_HTTPError e).
Qed.

Lemma register_agent_fetch_failure_witness :
  register_agent Sample.str
    (Sample.world (Sample.not_json 200) (Raise Sample.refused) Sample.no_stream)
    Sample.echo_url Sample.alice [Agent.set_health true 5 Sample.echo_agent]
  = (HTTPException 400 "Agent already registered",
     [Agent.set_health true 5 Sample.echo_agent])
  /\ register_agent Sample.str
       (Sample.world (Sample.not_json 200) (Raise Sample.refused) Sample.no_stream)
       Sample.echo_url Sample.alice []
     = (HTTPException 400
          "Invalid agent card response: Expecting value: line 1 column 1 (char 0)",
        []).
Proof.
  split; [reflexivity|].
  refine (proj1 (register_agent_fetch_failure Sample.str
    (Sample.world (Sample.not_json 200) (Raise Sample.refused) Sample.no_stream)
    Sample.echo_url Sample.alice []
    (JSONDecodeError "Expecting value: line 1 column 1 (char 0)") eq_refl _)).
  right. right. eexists. eexists. repeat split; reflexivity.
Defined.

Example register_agent_unreachable :
  register_agent Sample.str
    (Sample.world (Raise Sample.refused) (Raise Sample.refused) Sample.no_stream)
    Sample.echo_url Sample.alice []
  = (HTTPException 400
       "Failed to fetch agent card from http://agent.example/a/.well-known/agent.json: All connection attempts failed",
     []).
Proof. reflexivity. Qed.

(** * Further properties of the agent API *)

(** ** Canonical URLs *)

Lemma rstrip_slashes s : exists n, s = Py.rstrip "/" s +:+ slashes n.
Proof.
  induction s as [|c s [n IH]]; [by exists O|].
  cbn [Py.rstrip]. destruct (Py.rstrip "/" s) as [|d kept] eqn:E.
  - destruct (Py.char_in c "/") eqn:Hc.
    + exists (S n). simpl in Hc. destruct (Ascii.eqb_spec c "/"); [|done].
      subst c. simpl in *. by rewrite IH at 1.
    + exists n. simpl in *. by rewrite IH at 1.
  - exists n. simpl in *. by rewrite IH at 1.
Qed.

Lemma rstrip_no_trailing_slash s t : Py.rstrip "/" s <> t +:+ "/".
Proof.
  revert t. induction s as [|c s IH]; intros t.
  - by destruct t.
  - cbn [Py.rstrip]. destruct (Py.rstrip "/" s) as [|d kept] eqn:E.
    + destruct (Py.char_in c "/") eqn:Hc; [by destruct t|].
      destruct t as [|c' [|? ?]]; simpl; try discriminate.
      intros [= ->]. discriminate Hc.
    + destruct t as [|c' t]; simpl.
      * discriminate.
      * intros [= -> H]. by apply (IH t).
Qed.

(** X1: the URL a successful registration stores and returns is the
    requested URL without its run of trailing slashes, however many there
    are: it never ends with a slash. *)
Theorem register_agent_canonical_url str w req user db resp db' :
  register_agent str w req user db = (Return resp, db') ->
  (exists n, AgentRegisterRequest.url req = AgentResponse.url resp +:+ slashes n)
  /\ (forall t, AgentResponse.url resp <> t +:+ "/")
  /\ exists agent,
       db' = (db ++ [agent])%list
       /\ Agent.url agent = AgentResponse.url resp
       /\ Agent.id agent = AgentResponse.id resp.
Proof.
  intros Hreg.
  apply register_agent_Return in Hreg as (card & agent & _ & _ & Hnew & -> & ->).
  apply new_agent_Value in Hnew as (fields & skills & _ & _ & ->). simpl.
  split; [apply rstrip_slashes|]. split; [apply rstrip_no_trailing_slash|].
  by eexists.
Qed.

Lemma register_agent_canonical_url_witness :
  exists n, "http://agent.example/a///" = "http://agent.example/a" +:+ slashes n.
Proof.
  exact (proj1 (register_agent_canonical_url Sample.str
    (Sample.world (Sample.ok Sample.echo_card) (Raise Sample.refused) Sample.no_stream)
    {| AgentRegisterRequest.url := "http://agent.example/a///" |}
    Sample.alice [] _ _ eq_refl)).
Defined.

(** ** Keys, URLs and the shape of the table *)

Lemma next_id_fresh db row : In row db -> Agent.id row < Db.next_id db.
Proof.
  unfold Db.next_id. induction db as [|r db IH]; simpl; [done|].
  intros [->|Hin]; [lia|]. specialize (IH Hin). lia.
Qed.

Lemma where_id_nil agent_id db :
  Db.where_id agent_id db = [] <-> ~ In agent_id (map Agent.id db).
Proof.
  unfold Db.where_id. induction db as [|row db IH]; simpl; [tauto|].
  destruct (Agent.id row =? agent_id) eqn:E.
  - apply Z.eqb_eq in E. split; [discriminate|]. intros H. exfalso. apply H. by left.
  - apply Z.eqb_neq in E. rewrite IH. tauto.
Qed.

Lemma where_url_nil url db :
  Db.where_url url db = [] <-> ~ In url (map Agent.url db).
Proof.
  unfold Db.where_url. induction db as [|row db IH]; simpl; [tauto|].
  destruct (String.eqb (Agent.url row) url) eqn:E.
  - apply String.eqb_eq in E. split; [discriminate|]. intros H. exfalso. apply H. by left.
  - apply String.eqb_neq in E. rewrite IH. tauto.
Qed.



(** Committing the health columns of the only row with a key rewrites
    that row in place. *)
Lemma commit_set_health_in_place agent_id db agent healthy now :
  Db.where_id agent_id db = [agent] ->
  Db.commit (Agent.set_health healthy now agent) db
  = map (fun row => if Agent.id row =? agent_id
                    then Agent.set_health healthy now row else row) db.
Proof.
  intros Hsel. unfold Db.commit. apply map_ext_in. intros row Hin.
  assert (Hid : Agent.id agent = agent_id).
  { apply (where_id_key agent_id db). rewrite Hsel. by left. }
  destruct (set_health_fields healthy now agent) as (_ & _ & -> & _).
  rewrite Hid. destruct (Agent.id row =? agent_id) eqn:E; [|done].
  assert (Hrow : In row (Db.where_id agent_id db)).
  { unfold Db.where_id. by apply filter_In. }
  rewrite Hsel in Hrow. destruct Hrow as [->|[]]. done.
Qed.

Lemma filter_map_NoDup {A B} (f : A -> B) (p : A -> bool) (l : list A) :
  NoDup (map f l) -> NoDup (map f (List.filter p l)).
Proof.
  induction l as [|a l IH]; simpl; [done|].
  rewrite NoDup_cons. intros [Hnotin Hnd].
  destruct (p a); simpl; [|by apply IH].
  apply NoDup_cons. split; [|by apply IH].
  rewrite list_elem_of_In, in_map_iff in *.
  intros (x & Hx & Hin). apply Hnotin. exists x. split; [done|].
  by apply filter_In in Hin as [? _].
Qed.

Lemma in_place_columns agent_id healthy now db :
  let db' := map (fun row => if Agent.id row =? agent_id
                             then Agent.set_health healthy now row else row) db in
  map Agent.id db' = map Agent.id db /\ map Agent.url db' = map Agent.url db.
Proof.
  simpl. rewrite !map_map. split; apply map_ext; intros row;
    destruct (Agent.id row =? agent_id); by destruct row.
Qed.

Lemma test_agent_commits str w agent_id req db agent :
  Db.scalar_one_or_none (Db.where_id agent_id db) = Value (Some agent) ->
  exists healthy,
    (test_agent str w agent_id req db).2
    = Db.commit (Agent.set_health healthy (utcnow w) agent) db.
Proof. intros Hsel. test_agent_cases Hsel; by eexists. Qed.

Lemma check_agent_health_commits w agent_id db agent :
  Db.scalar_one_or_none (Db.where_id agent_id db) = Value (Some agent) ->
  exists healthy,
    (check_agent_health w agent_id db).2
    = Db.commit (Agent.set_health healthy (utcnow w) agent) db.
Proof.
  intros Hsel. unfold check_agent_health. rewrite Hsel. simpl.
  destruct (Httpx.get _ _) as [resp|e]; simpl; [|by eexists].
  unfold Httpx.raise_for_status. destruct (Httpx.is_success _); by eexists.
Qed.

(** The table with the health pair of the row of a key set. *)
Lemma test_agent_table str w agent_id req db :
  (test_agent str w agent_id req db).2 = db
  \/ exists healthy,
       (test_agent str w agent_id req db).2
       = map (fun row => if Agent.id row =? agent_id
                         then Agent.set_health healthy (utcnow w) row else row) db.
Proof.
  destruct (Db.scalar_one_or_none (Db.where_id agent_id db)) as [[agent|]|e] eqn:Hsel.
  - right. destruct (test_agent_commits str w agent_id req db agent Hsel)
      as [healthy ->]. exists healthy.
    apply commit_set_health_in_place. by apply scalar_one_inv.
  - left. unfold test_agent. by rewrite Hsel.
  - left. unfold test_agent. by rewrite Hsel.
Qed.

Lemma check_agent_health_table w agent_id db :
  (check_agent_health w agent_id db).2 = db
  \/ exists healthy,
       (check_agent_health w agent_id db).2
       = map (fun row => if Agent.id row =? agent_id
                         then Agent.set_health healthy (utcnow w) row else row) db.
Proof.
  destruct (Db.scalar_one_or_none (Db.where_id agent_id db)) as [[agent|]|e] eqn:Hsel.
  - right. destruct (check_agent_health_commits w agent_id db agent Hsel)
      as [healthy ->]. exists healthy.
    apply commit_set_health_in_place. by apply scalar_one_inv.
  - left. unfold check_agent_health. by rewrite Hsel.
  - left. unfold check_agent_health. by rewrite Hsel.
Qed.

Lemma stream_agent_table str w agent_id req db :
  (stream_agent str w agent_id req db).2 = db.
Proof.
  unfold stream_agent.
  by destruct (Db.scalar_one_or_none (Db.where_id agent_id db)) as [[agent|]|e].
Qed.

(** X2: the two relays that probe an agent never add, remove or reorder
    rows and never write a column other than [is_healthy] and
    [last_health_check]: whatever the remote side does, the table after
    [test_agent] or [check_agent_health] is the table before, or the table
    before with the health pair of the row of that key set; [stream_agent]
    never writes at all. *)
Theorem relays_touch_health_only str w agent_id req db :
  let touched healthy :=
    map (fun row => if Agent.id row =? agent_id
                    then Agent.set_health healthy (utcnow w) row else row) db in
  ((test_agent str w agent_id req db).2 = db
   \/ exists healthy, (test_agent str w agent_id req db).2 = touched healthy)
  /\ ((check_agent_health w agent_id db).2 = db
      \/ exists healthy, (check_agent_health w agent_id db).2 = touched healthy)
  /\ (stream_agent str w agent_id req db).2 = db.
Proof.
  intros touched. subst touched. split; [|split].
  - apply test_agent_table.
  - apply check_agent_health_table.
  - apply stream_agent_table.
Qed.

(** A registration leaves the table alone or appends one row with a
    fresh key and a URL no row had. *)
Lemma register_agent_table str w req user db :
  (register_agent str w req user db).2 = db
  \/ exists agent,
       (register_agent str w req user db).2 = (db ++ [agent])%list
       /\ Agent.id agent = Db.next_id db
       /\ Agent.url agent = Py.rstrip "/" (AgentRegisterRequest.url req)
       /\ Db.where_url (Agent.url agent) db = [].
Proof.
  destruct (register_agent str w req user db) as [res db'] eqn:Hreg.
  destruct res as [resp|code detail|e].
  - right. apply register_agent_Return in Hreg
      as (card & agent & Hnone & _ & Hnew & _ & ->).
    apply new_agent_Value in Hnew as (fields & skills & _ & _ & ->).
    eexists. split; [reflexivity|]. by simpl.
  - left. pose proof (register_agent_failed str w req user db) as H.
    rewrite Hreg in H. by apply H.
  - left. pose proof (register_agent_failed str w req user db) as H.
    rewrite Hreg in H. by apply H.
Qed.

(** X3: every handler of the agent API keeps the table well formed: keys
    stay unique and canonical URLs stay unique, whatever the request and
    whatever the remote side answers. *)
Theorem handlers_keep_well_formed str w req treq user agent_id db :
  well_formed db ->
  well_formed (register_agent str w req user db).2
  /\ well_formed (test_agent str w agent_id treq db).2
  /\ well_formed (stream_agent str w agent_id treq db).2
  /\ well_formed (check_agent_health w agent_id db).2
  /\ well_formed (delete_agent user agent_id db).2.
Proof.
  intros [Hids Hurls]. repeat split.
  - destruct (register_agent_table str w req user db)
      as [->|(agent & -> & Hid & _ & _)]; [done|].
    rewrite map_app. simpl. apply NoDup_app. split; [done|].
    split; [|apply NoDup_singleton].
    intros key Hkey. rewrite list_elem_of_In, in_map_iff in Hkey.
    destruct Hkey as (row & <- & Hin). apply next_id_fresh in Hin.
    rewrite list_elem_of_singleton. lia.
  - destruct (register_agent_table str w req user db)
      as [->|(agent & -> & _ & _ & Hnone)]; [done|].
    rewrite map_app. simpl. apply NoDup_app. split; [done|].
    split; [|apply NoDup_singleton].
    intros url Hurl. rewrite list_elem_of_singleton. intros ->.
    apply where_url_nil in Hnone. apply Hnone. by rewrite <- list_elem_of_In.
  - destruct (test_agent_table str w agent_id treq db) as [->|[healthy ->]]; [done|].
    by destruct (in_place_columns agent_id healthy (utcnow w) db) as [-> _].
  - destruct (test_agent_table str w agent_id treq db) as [->|[healthy ->]]; [done|].
    by destruct (in_place_columns agent_id healthy (utcnow w) db) as [_ ->].
  - by rewrite stream_agent_table.
  - by rewrite stream_agent_table.
  - destruct (check_agent_health_table w agent_id db) as [->|[healthy ->]]; [done|].
    by destruct (in_place_columns agent_id healthy (utcnow w) db) as [-> _].
  - destruct (check_agent_health_table w agent_id db) as [->|[healthy ->]]; [done|].
    by destruct (in_place_columns agent_id healthy (utcnow w) db) as [_ ->].
  - unfold delete_agent.
    destruct (Db.scalar_one_or_none _) as [[agent|]|e]; simpl; try done.
    destruct (negb _); simpl; [done|]. by apply filter_map_NoDup.
  - unfold delete_agent.
    destruct (Db.scalar_one_or_none _) as [[agent|]|e]; simpl; try done.
    destruct (negb _); simpl; [done|]. by apply filter_map_NoDup.
Qed.

Lemma handlers_keep_well_formed_witness :
  well_formed [Sample.echo_agent]
  /\ well_formed
       (register_agent Sample.str
          (Sample.world (Sample.ok Sample.echo_card) (Raise Sample.refused)
             Sample.no_stream)
          {| AgentRegisterRequest.url := "http://other.example/" |}
          Sample.alice [Sample.echo_agent]).2.
Proof.
  assert (H : well_formed [Sample.echo_agent]) by (split; apply NoDup_singleton).
  split; [exact H|].
  exact (proj1 (handlers_keep_well_formed Sample.str
    (Sample.world (Sample.ok Sample.echo_card) (Raise Sample.refused) Sample.no_stream)
    {| AgentRegisterRequest.url := "http://other.example/" |}
    (Sample.hello None) Sample.alice 1 [Sample.echo_agent] H)).
Defined.

(** ** Exceptions that escape *)











Example register_agent_object_name :
  register_agent Sample.str
    (Sample.world
       (Sample.ok (JObject [("name", JObject [("en", JString "Echo")])]))
       (Raise Sample.refused) Sample.no_stream)
    Sample.echo_url Sample.alice []
  = (Uncaught DBAPIError, []).
Proof. reflexivity. Qed.

Example register_agent_null_skills :
  register_agent Sample.str
    (Sample.world (Sample.ok (JObject [("name", JString "Echo"); ("skills", JNull)]))
       (Raise Sample.refused) Sample.no_stream)
    Sample.echo_url Sample.alice []
  = (Uncaught TypeError, []).
Proof. reflexivity. Qed.

(** ** Deleting agents *)

Lemma where_id_db_delete agent_id agent db :
  Db.where_id agent_id (db_delete agent db) =
    if Agent.id agent =? agent_id then [] else Db.where_id agent_id db.
Proof.
  unfold Db.where_id, db_delete.
  induction db as [|row db IH]; simpl; [by destruct (_ =? _)|].
  destruct (Agent.id row =? Agent.id agent) eqn:Hrow;
    destruct (Agent.id agent =? agent_id) eqn:Hag;
    destruct (Agent.id row =? agent_id) eqn:Hq;
    simpl; rewrite ?Hq, IH, ?Hag; try reflexivity; exfalso; lia.
Qed.

Lemma length_db_delete agent db :
  (length (db_delete agent db) + length (Db.where_id (Agent.id agent) db)
   = length db)%nat.
Proof.
  unfold db_delete, Db.where_id. induction db as [|row db IH]; simpl; [done|].
  destruct (Agent.id row =? Agent.id agent); simpl; lia.
Qed.

Lemma db_delete_absent agent db :
  (forall row, In row db -> Agent.id row <> Agent.id agent) ->
  db_delete agent db = db.
Proof.
  unfold db_delete. induction db as [|row db IH]; simpl; [done|].
  intros H. destruct (Agent.id row =? Agent.id agent) eqn:E.
  - apply Z.eqb_eq in E. exfalso. apply (H row); auto.
  - simpl. f_equal. apply IH. intros r Hr. apply H. by right.
Qed.

(** X6: only the owner can delete an agent.  For anyone else the request
    fails with 403 and the table is untouched; for the owner it succeeds,
    the key is gone afterwards, every other key answers as before and the
    table has one row less. *)
Theorem delete_agent_owner_only user agent_id db agent :
  Db.scalar_one_or_none (Db.where_id agent_id db) = Value (Some agent) ->
  (Agent.user_id agent <> User.id user ->
   delete_agent user agent_id db
   = (HTTPException 403 "Not authorized to delete this agent", db))
  /\ (Agent.user_id agent = User.id user ->
      (delete_agent user agent_id db).1 = Return (JObject [("status", JString "deleted")])
      /\ Db.where_id agent_id (delete_agent user agent_id db).2 = []
      /\ (forall other, other <> agent_id ->
            Db.where_id other (delete_agent user agent_id db).2 = Db.where_id other db)
      /\ (length (delete_agent user agent_id db).2 + 1 = length db)%nat).
Proof.
  intros Hsel. pose proof (scalar_one_inv _ _ Hsel) as Hone.
  assert (Hid : Agent.id agent = agent_id).
  { apply (where_id_key agent_id db). rewrite Hone. by left. }
  unfold delete_agent. rewrite Hsel. split.
  - intros Hne. apply Z.eqb_neq in Hne. by rewrite Hne.
  - intros Heq. apply Z.eqb_eq in Heq. rewrite Heq. simpl.
    split; [done|]. split; [|split].
    + by rewrite where_id_db_delete, Hid, Z.eqb_refl.
    + intros other Hne. rewrite where_id_db_delete, Hid.
      apply not_eq_sym, Z.eqb_neq in Hne. by rewrite Hne.
    + pose proof (length_db_delete agent db) as Hlen.
      rewrite Hid, Hone in Hlen. simpl in Hlen. lia.
Qed.

Lemma delete_agent_owner_only_witness :
  delete_agent {| User.id := 8; User.username := "bob" |} 1 [Sample.echo_agent]
  = (HTTPException 403 "Not authorized to delete this agent", [Sample.echo_agent]).
Proof.
  refine (proj1 (delete_agent_owner_only {| User.id := 8; User.username := "bob" |}
                   1 [Sample.echo_agent] Sample.echo_agent eq_refl) _).
  simpl. lia.
Defined.

(** X7: a deleted agent stays deleted: after a successful delete, a
    second delete of the same id, by anyone, fails with 404 and changes
    nothing. *)
Theorem delete_agent_twice user agent_id db res db' :
  delete_agent user agent_id db = (Return res, db') ->
  forall user',
    delete_agent user' agent_id db' = (HTTPException 404 "Agent not found", db').
Proof.
  unfold delete_agent at 1.
  destruct (Db.scalar_one_or_none (Db.where_id agent_id db)) as [[agent|]|e] eqn:Hsel;
    try discriminate.
  destruct (negb _); [discriminate|]. intros [= _ <-] user'.
  assert (Hid : Agent.id agent = agent_id).
  { apply (where_id_key agent_id db). rewrite (scalar_one_inv _ _ Hsel). by left. }
  unfold delete_agent. by rewrite where_id_db_delete, Hid, Z.eqb_refl.
Qed.

Lemma delete_agent_twice_witness :
  delete_agent Sample.alice 1 [] = (HTTPException 404 "Agent not found", []).
Proof.
  exact (delete_agent_twice Sample.alice 1 [Sample.echo_agent] _ _ eq_refl Sample.alice).
Defined.

(** X8: registering an agent and then deleting it, as the same user and
    by the id the registration returned, gives back the table there was
    before the registration; any other user is refused with 403. *)
Theorem register_then_delete str w req user db resp db' :
  register_agent str w req user db = (Return resp, db') ->
  delete_agent user (AgentResponse.id resp) db'
  = (Return (JObject [("status", JString "deleted")]), db)
  /\ forall other,
       User.id other <> User.id user ->
       delete_agent other (AgentResponse.id resp) db'
       = (HTTPException 403 "Not authorized to delete this agent", db').
Proof.
  intros Hreg.
  apply register_agent_Return in Hreg as (card & agent & _ & _ & Hnew & -> & ->).
  apply new_agent_Value in Hnew as (fields & skills & _ & _ & Hagent).
  assert (Hid : Agent.id agent = Db.next_id db) by by subst agent.
  assert (Howner : Agent.user_id agent = User.id user) by by subst agent.
  clear Hagent.
  assert (Hfresh : forall row, In row db -> Agent.id row <> Agent.id agent).
  { intros row Hin. apply next_id_fresh in Hin. lia. }
  assert (Hsel : Db.where_id (Agent.id agent) (Db.add agent db) = [agent]).
  { unfold Db.where_id, Db.add. rewrite List.filter_app. simpl.
    rewrite Z.eqb_refl.
    assert (Hnone : Db.where_id (Agent.id agent) db = []).
    { apply where_id_nil. rewrite in_map_iff. intros (row & Heq & Hin).
      by apply (Hfresh row). }
    unfold Db.where_id in Hnone. by rewrite Hnone. }
  unfold delete_agent. simpl. rewrite Hsel. simpl. split.
  - rewrite Howner, Z.eqb_refl. simpl. f_equal.
    unfold db_delete, Db.add. rewrite List.filter_app. simpl.
    rewrite Z.eqb_refl. simpl. rewrite app_nil_r. by apply db_delete_absent.
  - intros other Hne. rewrite Howner.
    apply not_eq_sym, Z.eqb_neq in Hne. by rewrite Hne.
Qed.

Lemma register_then_delete_witness :
  delete_agent Sample.alice 1 [Sample.echo_agent]
  = (Return (JObject [("status", JString "deleted")]), []).
Proof.
  exact (proj1 (register_then_delete Sample.str
    (Sample.world (Sample.ok Sample.echo_card) (Raise Sample.refused) Sample.no_stream)
    Sample.echo_url Sample.alice [] _ _ eq_refl)).
Defined.

(** ** Listing agents *)

#[global] Instance registered_at_desc_total : Total registered_at_desc.
Proof. intros a b. unfold registered_at_desc. lia. Qed.

#[global] Instance registered_at_desc_trans : Transitive registered_at_desc.
Proof. intros a b c. unfold registered_at_desc. lia. Qed.

Lemma users_map_snoc rows u :
  users_map (rows ++ [u]) = <[UserRow.id u := UserRow.username u]> (users_map rows).
Proof. unfold users_map. by rewrite foldl_snoc. Qed.

Lemma find_snoc {A} (p : A -> bool) (l : list A) (a : A) :
  List.find p (l ++ [a]) =
    match List.find p l with
    | Some x => Some x
    | None => if p a then Some a else None
    end.
Proof. induction l as [|x l IH]; simpl; [done|]. by destruct (p x). Qed.

Lemma find_none_key rows key :
  (forall u, In u rows -> UserRow.id u <> key) ->
  List.find (fun u => UserRow.id u =? key) rows = None.
Proof.
  induction rows as [|u rows IH]; simpl; [done|]. intros H.
  destruct (UserRow.id u =? key) eqn:E.
  - apply Z.eqb_eq in E. exfalso. apply (H u); auto.
  - apply IH. intros v Hv. apply H. by right.
Qed.

(** With a unique key, the dict of names answers like a scan of the rows. *)
Lemma users_map_lookup rows key :
  NoDup (map UserRow.id rows) ->
  users_map rows !! key
  = UserRow.username <$> List.find (fun u => UserRow.id u =? key) rows.
Proof.
  induction rows as [|u rows IH] using rev_ind; intros Hnd; [done|].
  rewrite map_app in Hnd. apply NoDup_app in Hnd as (Hnd & Hdisj & _).
  rewrite users_map_snoc, find_snoc.
  destruct (UserRow.id u =? key) eqn:E.
  - apply Z.eqb_eq in E. subst key. rewrite lookup_insert_eq.
    rewrite find_none_key; [done|].
    intros v Hv Heq. apply (Hdisj (UserRow.id v)).
    + rewrite list_elem_of_In. by apply in_map.
    + rewrite Heq. simpl. by left.
  - apply Z.eqb_neq in E. rewrite lookup_insert_ne by done.
    rewrite IH by done. by destruct (List.find _ rows).
Qed.

Lemma users_map_lookup_none rows key :
  (forall u, In u rows -> UserRow.id u <> key) -> users_map rows !! key = None.
Proof.
  induction rows as [|u rows IH] using rev_ind; intros H; [done|].
  rewrite users_map_snoc, lookup_insert_ne.
  - apply IH. intros v Hv. apply H. apply in_or_app. by left.
  - apply H. apply in_or_app. right. by left.
Qed.

Lemma find_filter {A} (p q : A -> bool) (l : list A) :
  (forall a, p a = true -> q a = true) ->
  List.find p (List.filter q l) = List.find p l.
Proof.
  intros Hpq. induction l as [|a l IH]; simpl; [done|].
  destruct (q a) eqn:Hq; simpl.
  - by destruct (p a).
  - destruct (p a) eqn:Hp; [|done]. rewrite (Hpq a Hp) in Hq. discriminate.
Qed.

(** X9: the listing shows every agent of the table exactly once, newest
    registration first: its rows are those of a permutation of the table
    that is sorted by [registered_at], descending. *)
Theorem list_agents_newest_first users db :
  exists agents,
    agents ≡ₚ db
    /\ StronglySorted registered_at_desc agents
    /\ map AgentResponse.id (list_agents users db) = map Agent.id agents
    /\ map AgentResponse.url (list_agents users db) = map Agent.url agents
    /\ map AgentResponse.registered_at (list_agents users db)
       = map Agent.registered_at agents
    /\ map AgentResponse.is_healthy (list_agents users db)
       = map Agent.is_healthy agents.
Proof.
  exists (order_by_registered_at_desc db). unfold order_by_registered_at_desc.
  split; [apply merge_sort_Permutation|].
  split; [apply (StronglySorted_merge_sort registered_at_desc)|].
  unfold list_agents, order_by_registered_at_desc. cbv zeta.
  rewrite !map_map. by repeat split.
Qed.

(** X10: when user keys are unique, the listing names the owner of each
    agent as a scan of the [users] table would: the username of the row
    with the owner's key, "Unknown" when no row has it. *)
Theorem list_agents_registered_by users db :
  NoDup (map UserRow.id users) ->
  map AgentResponse.registered_by (list_agents users db)
  = map (owner_name users) (order_by_registered_at_desc db).
Proof.
  intros Hnd. unfold list_agents. cbv zeta. rewrite map_map. simpl.
  apply map_ext_in. intros a Ha.
  rewrite users_map_lookup by by apply filter_map_NoDup.
  rewrite find_filter.
  - unfold owner_name. by destruct (List.find _ users).
  - intros u Hu. apply Z.eqb_eq in Hu. apply existsb_exists.
    exists (Agent.user_id a). split; [by apply in_map|]. by apply Z.eqb_eq.
Qed.

Lemma list_agents_registered_by_witness :
  NoDup (map UserRow.id [Sample.alice_row])
  /\ map AgentResponse.registered_by (list_agents [Sample.alice_row] [Sample.echo_agent])
     = map (owner_name [Sample.alice_row])
           (order_by_registered_at_desc [Sample.echo_agent]).
Proof.
  assert (H : NoDup (map UserRow.id [Sample.alice_row])) by apply NoDup_singleton.
  split; [exact H|].
  exact (list_agents_registered_by [Sample.alice_row] [Sample.echo_agent] H).
Defined.

Example list_agents_alice :
  map AgentResponse.registered_by (list_agents [Sample.alice_row] [Sample.echo_agent])
  = ["alice"].
Proof. vm_compute. reflexivity. Qed.

(** X11: the name returned by a registration and the name shown by the
    listing can differ.  When the registering user has no row in [users]
    (the anonymous user of a deployment without authentication, whose id
    is 0), the registration answers with the user's own name, while the
    listing of the new table shows the same agent as registered by
    "Unknown". *)
Theorem register_then_list_unknown str w req user db users resp db' :
  register_agent str w req user db = (Return resp, db') ->
  (forall u, In u users -> UserRow.id u <> User.id user) ->
  AgentResponse.registered_by resp = User.username user
  /\ exists listed,
       In listed (list_agents users db')
       /\ AgentResponse.id listed = AgentResponse.id resp
       /\ AgentResponse.url listed = AgentResponse.url resp
       /\ AgentResponse.registered_by listed = "Unknown".
Proof.
  intros Hreg Hmissing.
  apply register_agent_Return in Hreg as (card & agent & _ & _ & Hnew & -> & ->).
  apply new_agent_Value in Hnew as (fields & skills & _ & _ & Hagent).
  assert (Howner : Agent.user_id agent = User.id user) by by subst agent.
  split; [done|].
  assert (Hin : In agent (order_by_registered_at_desc (Db.add agent db))).
  { apply list_elem_of_In. unfold order_by_registered_at_desc.
    rewrite merge_sort_Permutation. unfold Db.add.
    apply list_elem_of_In, in_or_app. right. by left. }
  unfold list_agents. cbv zeta.
  eexists. split; [apply in_map, Hin|]. simpl.
  repeat split. rewrite users_map_lookup_none; [done|].
  intros u Hu. apply filter_In in Hu as [Hu _]. rewrite Howner. by apply Hmissing.
Qed.

Lemma register_then_list_unknown_witness :
  AgentResponse.registered_by (agent_response Sample.anonymous_agent Sample.anonymous)
  = "anonymous"
  /\ exists listed,
       In listed (list_agents [Sample.alice_row] [Sample.anonymous_agent])
       /\ AgentResponse.id listed = 1
       /\ AgentResponse.url listed = "http://agent.example/a"
       /\ AgentResponse.registered_by listed = "Unknown".
Proof.
  refine (register_then_list_unknown Sample.str
    (Sample.world (Sample.ok Sample.echo_card) (Raise Sample.refused) Sample.no_stream)
    Sample.echo_url Sample.anonymous [] [Sample.alice_row]
    (agent_response Sample.anonymous_agent Sample.anonymous)
    [Sample.anonymous_agent] eq_refl _).
  intros u [<-|[]]. simpl. lia.
Defined.

(** ** The relayed stream *)

Lemma relay_line line :
  match line with
  | String _ _ => Text (line +:+ LF)
  | EmptyString => Text LF
  end = Text (line +:+ LF).
Proof. by destruct line. Qed.

(** X12: when the remote agent answers a streaming invocation with status
    200, the relay yields one chunk per line of the answer, in order, each
    being the line followed by a line terminator (an empty line gives the
    bare terminator); if the connection breaks after some lines, those
    lines are followed by exactly one in-band error event.  Nothing is
    written to the table. *)
Theorem stream_agent_relays_lines str w agent_id req db agent resp :
  Db.scalar_one_or_none (Db.where_id agent_id db) = Value (Some agent) ->
  Httpx.stream (client w) (Agent.url agent)
    (payload "stream-1" "message/stream" (uuid4 w) (message req))
    (stream_headers req) = Value resp ->
  Httpx.stream_status_code resp = 200 ->
  stream_agent str w agent_id req db
  = (Return (map (fun line => Text (line +:+ LF)) (Httpx.lines resp)
             ++ match Httpx.broken resp with
                | Some e => [error_event str e]
                | None => []
                end)%list,
     db).
Proof.
  intros Hsel Hstream Hstatus.
  unfold stream_agent, event_generator. rewrite Hsel. simpl.
  rewrite Hstream, Hstatus. simpl. do 3 f_equal.
  apply map_ext. intros line. apply relay_line.
Qed.

Lemma stream_agent_relays_lines_witness :
  stream_agent Sample.str
    (Sample.world (Raise Sample.refused) (Raise Sample.refused)
       (Value {| Httpx.stream_status_code := 200;
                 Httpx.aread_decode := Value "";
                 Httpx.lines := ["event: message"; "data: {}"; ""];
                 Httpx.broken := Some Sample.refused |}))
    1 (Sample.hello None) [Sample.echo_agent]
  = (Return [Text ("event: message" +:+ LF); Text ("data: {}" +:+ LF); Text LF;
             SseData (JObject [("error", JString "All connection attempts failed");
                               ("type", JString "connection_error")])],
     [Sample.echo_agent]).
Proof.
  exact (stream_agent_relays_lines Sample.str
    (Sample.world (Raise Sample.refused) (Raise Sample.refused)
       (Value {| Httpx.stream_status_code := 200;
                 Httpx.aread_decode := Value "";
                 Httpx.lines := ["event: message"; "data: {}"; ""];
                 Httpx.broken := Some Sample.refused |}))
    1 (Sample.hello None) [Sample.echo_agent] Sample.echo_agent _
    eq_refl eq_refl eq_refl).
Defined.

(** X13: the streaming relay accepts status 200 only.  Any other status,
    including the other 2xx statuses such as 201 or 204, is answered with
    exactly one event and none of the lines of the answer is relayed: the
    [{"error", "status_code"}] event when the body is read and decoded,
    the in-band error event of the exception when reading or decoding it
    raises. *)
Theorem stream_agent_other_status str w agent_id req db agent resp :
  Db.scalar_one_or_none (Db.where_id agent_id db) = Value (Some agent) ->
  Httpx.stream (client w) (Agent.url agent)
    (payload "stream-1" "message/stream" (uuid4 w) (message req))
    (stream_headers req) = Value resp ->
  Httpx.stream_status_code resp <> 200 ->
  stream_agent str w agent_id req db
  = (Return [match Httpx.aread_decode resp with
             | Value text =>
                 SseData (JObject [("error", JString text);
                                   ("status_code",
                                    JNumber (Httpx.stream_status_code resp))])
             | Raise e => error_event str e
             end],
     db).
Proof.
  intros Hsel Hstream Hstatus.
  unfold stream_agent, event_generator. rewrite Hsel. simpl. rewrite Hstream.
  apply Z.eqb_neq in Hstatus. rewrite Hstatus. simpl.
  by destruct (Httpx.aread_decode resp).
Qed.

Lemma stream_agent_other_status_witness :
  Httpx.is_success 204 = true
  /\ stream_agent Sample.str
       (Sample.world (Raise Sample.refused) (Raise Sample.refused)
          (Value {| Httpx.stream_status_code := 204;
                    Httpx.aread_decode := Value "";
                    Httpx.lines := ["data: ignored"];
                    Httpx.broken := None |}))
       1 (Sample.hello None) [Sample.echo_agent]
     = (Return [SseData (JObject [("error", JString "");
                                  ("status_code", JNumber 204)])],
        [Sample.echo_agent]).
Proof.
  split; [reflexivity|].
  refine (stream_agent_other_status Sample.str
    (Sample.world (Raise Sample.refused) (Raise Sample.refused)
       (Value {| Httpx.stream_status_code := 204;
                 Httpx.aread_decode := Value "";
                 Httpx.lines := ["data: ignored"];
                 Httpx.broken := None |}))
    1 (Sample.hello None) [Sample.echo_agent] Sample.echo_agent _
    eq_refl eq_refl _).
  simpl. lia.
Defined.

Example stream_agent_201_undecodable :
  stream_agent Sample.str
    (Sample.world (Raise Sample.refused) (Raise Sample.refused)
       (Sample.stream_of 201 (Raise Sample.bad_utf8)))
    1 (Sample.hello None) [Sample.echo_agent]
  = (Return [SseData (JObject [
       ("error", JString "'utf-8' codec can't decode byte 0xff in position 0: invalid start byte");
       ("type", JString "unexpected_error")])],
     [Sample.echo_agent]).
Proof. reflexivity. Qed.

(** X14: an in-band error event ends the stream.  Whatever the remote
    side does, what the generator yields is a run of relayed lines
    followed by at most one event, and nothing follows that event. *)
Theorem event_generator_shape str w agent body headers :
  exists texts events,
    event_generator str w agent body headers = (texts ++ events)%list
    /\ Forall (fun c => is_text c = true) texts
    /\ Forall (fun c => is_text c = false) events
    /\ (length events <= 1)%nat.
Proof.
  assert (Herr : forall e, is_text (error_event str e) = false).
  { intros e. unfold error_event. by destruct (is_HTTPError e). }
  unfold event_generator.
  destruct (Httpx.stream _ _ _ _) as [resp|e].
  - destruct (negb _).
    + exists [], [match Httpx.aread_decode resp with
                 | Value error_text =>
                     SseData (JObject [("error", JString error_text);
                                       ("status_code",
                                        JNumber (Httpx.stream_status_code resp))])
                 | Raise e => error_event str e
                 end].
      split; [by destruct (Httpx.aread_decode resp)|].
      split; [done|]. split; [|done].
      apply Forall_singleton. by destruct (Httpx.aread_decode resp).
    + eexists. eexists. split; [reflexivity|]. split.
      * apply Forall_forall. intros c Hc. rewrite list_elem_of_In, in_map_iff in Hc.
        destruct Hc as (line & <- & _). by destruct line.
      * destruct (Httpx.broken resp) as [e|]; simpl.
        -- split; [|lia]. by apply Forall_singleton.
        -- split; [constructor|lia].
  - exists [], [error_event str e]. split; [done|]. split; [done|].
    split; [|done]. by apply Forall_singleton.
Qed.

(** ** The header dict as a lookup *)

Lemma set_if_truthy_lookup name' field headers name :
  set_if_truthy name' field headers !! name =
    if String.eqb name name' then
      match truthy field with
      | Some v => Some v
      | None => headers !! name
      end
    else headers !! name.
Proof.
  unfold set_if_truthy, truthy.
  destruct (String.eqb name name') eqn:E.
  - apply String.eqb_eq in E. subst name'.
    destruct field as [[|c rest]|]; try done. apply lookup_insert_eq.
  - apply String.eqb_neq in E.
    destruct field as [[|c rest]|]; try done. by rewrite lookup_insert_ne.
Qed.

Lemma custom_value_x_prefixed name custom :
  ~ x_prefixed name -> custom_value name custom = None.
Proof.
  intros Hplain. destruct (custom_value name custom) as [v|] eqn:E; [|done].
  apply custom_value_In in E as (key & _ & <-).
  exfalso. apply Hplain, header_key_x_prefixed.
Qed.

(** What [fill_headers] leaves under a name: the custom value if the loop
    wrote one, else the credential of that name if it is set and not
    empty, else what the initial dict had. *)
Lemma fill_headers_lookup req headers name :
  fill_headers req headers !! name =
    match custom_value name (default [] (custom_headers req)) with
    | Some v => Some v
    | None =>
        match truthy (credential req name) with
        | Some v => Some v
        | None => headers !! name
        end
    end.
Proof.
  assert (Hcred :
    set_if_truthy "X-Tavily-API-Key" (tavily_api_key req)
      (set_if_truthy "X-OpenAI-Model" (openai_model req)
         (set_if_truthy "X-OpenAI-Base-URL" (openai_base_url req)
            (set_if_truthy "X-OpenAI-API-Key" (openai_api_key req) headers))) !! name
    = match truthy (credential req name) with
      | Some v => Some v
      | None => headers !! name
      end).
  { rewrite !set_if_truthy_lookup. unfold credential.
    destruct (String.eqb name "X-Tavily-API-Key") eqn:E4;
      destruct (String.eqb name "X-OpenAI-Model") eqn:E3;
      destruct (String.eqb name "X-OpenAI-Base-URL") eqn:E2;
      destruct (String.eqb name "X-OpenAI-API-Key") eqn:E1;
      try reflexivity;
      repeat match goal with
             | H : String.eqb _ _ = true |- _ => apply String.eqb_eq in H; subst
             end; try discriminate. }
  unfold fill_headers. cbv zeta.
  destruct (custom_headers req) as [custom|]; simpl.
  - rewrite add_custom_headers_lookup. by rewrite Hcred.
  - exact Hcred.
Qed.

(** X15: the header dict of the synchronous relay, read as a lookup.
    Under any name the value sent is, in this order of priority: the value
    of the last custom header written under it; the credential field of
    that name, when it is set and not the empty string; ["application/json"]
    for [Content-Type]; nothing. *)
Theorem test_headers_lookup req name :
  test_headers req !! name =
    match custom_value name (default [] (custom_headers req)) with
    | Some v => Some v
    | None =>
        match truthy (credential req name) with
        | Some v => Some v
        | None => if String.eqb name "Content-Type"
                  then Some "application/json" else None
        end
    end.
Proof.
  unfold test_headers. rewrite fill_headers_lookup.
  destruct (custom_value _ _); [done|]. destruct (truthy _); [done|].
  destruct (String.eqb name "Content-Type") eqn:E.
  - apply String.eqb_eq in E. subst name. apply lookup_singleton_eq.
  - apply String.eqb_neq in E. by apply lookup_singleton_ne.
Qed.

Lemma fill_headers_plain req headers name :
  ~ x_prefixed name -> fill_headers req headers !! name = headers !! name.
Proof.
  intros Hplain. rewrite fill_headers_lookup.
  rewrite custom_value_x_prefixed by done.
  unfold credential.
  destruct (String.eqb name "X-OpenAI-API-Key") eqn:E1;
    [apply String.eqb_eq in E1; subst; exfalso; apply Hplain;
     eexists _, _; split; [reflexivity|by right]|].
  destruct (String.eqb name "X-OpenAI-Base-URL") eqn:E2;
    [apply String.eqb_eq in E2; subst; exfalso; apply Hplain;
     eexists _, _; split; [reflexivity|by right]|].
  destruct (String.eqb name "X-OpenAI-Model") eqn:E3;
    [apply String.eqb_eq in E3; subst; exfalso; apply Hplain;
     eexists _, _; split; [reflexivity|by right]|].
  destruct (String.eqb name "X-Tavily-API-Key") eqn:E4;
    [apply String.eqb_eq in E4; subst; exfalso; apply Hplain;
     eexists _, _; split; [reflexivity|by right]|].
  done.
Qed.

Lemma plain_names :
  ~ x_prefixed "Content-Type" /\ ~ x_prefixed "Accept".
Proof. split; intros (c & rest & H & _); discriminate. Qed.

(** C10, as stated, fails: a key that is sent under a credential header
    name does not always get its value through.  With the two entries
    ["OpenAI-Model": "a"] and ["X-OpenAI-Model": "b"] both keys are sent
    as [X-OpenAI-Model], and the header carries "b", in both relays: the
    custom value "a" overrides nothing. *)
Lemma custom_override_collision :
  In ("OpenAI-Model", "a") [("OpenAI-Model", "a"); ("X-OpenAI-Model", "b")]
  /\ header_key "OpenAI-Model" = "X-OpenAI-Model"
  /\ In "X-OpenAI-Model" credential_header_names
  /\ test_headers
       (Sample.hello (Some [("OpenAI-Model", "a"); ("X-OpenAI-Model", "b")]))
       !! "X-OpenAI-Model" = Some "b"
  /\ stream_headers
       (Sample.hello (Some [("OpenAI-Model", "a"); ("X-OpenAI-Model", "b")]))
       !! "X-OpenAI-Model" = Some "b".
Proof.
  split; [by left|]. split; [reflexivity|]. split; [simpl; tauto|].
  split; vm_compute; reflexivity.
Qed.

(** C10 (amended): in both relays the custom headers are written after
    the fixed ones.  So when a key of the mapping is sent under one of the
    credential header names ([X-OpenAI-API-Key], [X-OpenAI-Base-URL],
    [X-OpenAI-Model], [X-Tavily-API-Key]), the header carries a custom
    value, whatever the dedicated request field was: the value of the last
    entry sent under that name, which is the entry's own value when no
    later entry is sent under the same name.  No key is ever sent as
    [Content-Type] or [Accept], so these two keep their built-in
    values. *)
Theorem custom_overrides_fixed req custom pre key value post :
  custom_headers req = Some custom ->
  custom = (pre ++ (key, value) :: post)%list ->
  In (header_key key) credential_header_names ->
  (exists winner key',
     custom_value (header_key key) custom = Some winner
     /\ In (key', winner) custom
     /\ header_key key' = header_key key
     /\ test_headers req !! header_key key = Some winner
     /\ stream_headers req !! header_key key = Some winner)
  /\ (Forall (fun kv => header_key kv.1 <> header_key key) post ->
      test_headers req !! header_key key = Some value
      /\ stream_headers req !! header_key key = Some value)
  /\ (forall other, header_key other <> "Content-Type" /\ header_key other <> "Accept")
  /\ test_headers req !! "Content-Type" = Some "application/json"
  /\ stream_headers req !! "Content-Type" = Some "application/json"
  /\ stream_headers req !! "Accept" = Some "text/event-stream".
Proof.
  intros Hc Hsplit _.
  assert (Hin : In (key, value) custom).
  { rewrite Hsplit. apply in_or_app. right. by left. }
  split; [|split; [|split]].
  - destruct (custom_value_is_Some key value custom Hin) as [winner Hw].
    destruct (custom_value_In _ _ _ Hw) as (key' & Hin' & Hkey').
    exists winner, key'. repeat split; try done.
    + by apply (fill_headers_custom req custom).
    + by apply (fill_headers_custom req custom).
  - intros Hpost.
    pose proof (custom_value_last (header_key key) pre key value post eq_refl Hpost)
      as Hv.
    rewrite <- Hsplit in Hv.
    split; by apply (fill_headers_custom req custom).
  - intros other.
    destruct (header_key_x_prefixed other) as (c & rest & -> & _).
    split; discriminate.
  - destruct plain_names as [Hct Hacc].
    unfold test_headers, stream_headers. rewrite !fill_headers_plain by done.
    repeat split.
Qed.

Lemma custom_overrides_fixed_witness :
  openai_model (Sample.hello (Some [("OpenAI-Model", "local-llm")])) = Some "gpt-4o"
  /\ test_headers (Sample.hello (Some [("OpenAI-Model", "local-llm")]))
       !! "X-OpenAI-Model" = Some "local-llm"
  /\ stream_headers (Sample.hello (Some [("OpenAI-Model", "local-llm")]))
       !! "X-OpenAI-Model" = Some "local-llm".
Proof.
  split; [reflexivity|].
  assert (Hfixed : In (header_key "OpenAI-Model") credential_header_names).
  { vm_compute. tauto. }
  exact (proj1 (proj2 (custom_overrides_fixed
    (Sample.hello (Some [("OpenAI-Model", "local-llm")]))
    [("OpenAI-Model", "local-llm")] [] "OpenAI-Model" "local-llm" []
    eq_refl eq_refl Hfixed)) (Forall_nil_2 _)).
Defined.

(** X16: no request can change the two plain headers.  Both relays always
    send [Content-Type: application/json]; the streaming relay always
    sends [Accept: text/event-stream] and the synchronous relay never
    sends an [Accept] header. *)
Theorem plain_headers_fixed req :
  test_headers req !! "Content-Type" = Some "application/json"
  /\ stream_headers req !! "Content-Type" = Some "application/json"
  /\ stream_headers req !! "Accept" = Some "text/event-stream"
  /\ test_headers req !! "Accept" = None.
Proof.
  destruct plain_names as [Hct Hacc].
  unfold test_headers, stream_headers. rewrite !fill_headers_plain by done.
  repeat split.
Qed.

(** X17: the streaming relay sends exactly the headers of the synchronous
    relay plus [Accept: text/event-stream]. *)
Theorem stream_headers_add_accept req :
  stream_headers req = <["Accept" := "text/event-stream"]> (test_headers req).
Proof.
  apply map_eq. intros name.
  destruct (String.eqb name "Accept") eqn:E.
  - apply String.eqb_eq in E. subst name. rewrite lookup_insert_eq.
    unfold stream_headers. rewrite fill_headers_plain by apply plain_names.
    apply lookup_insert_eq.
  - apply String.eqb_neq in E. rewrite lookup_insert_ne by done.
    unfold stream_headers, test_headers. rewrite !fill_headers_lookup.
    by rewrite lookup_insert_ne.
Qed.

(** X18: normalising a header name twice changes nothing more: the name a
    custom key is sent under is itself sent unchanged. *)
Theorem header_key_idempotent key : header_key (header_key key) = header_key key.
Proof. apply header_key_spec, header_key_x_prefixed. Qed.

(** X19: every header either relay sends is [Content-Type], [Accept] or
    begins with [x-] or [X-]: a request cannot add, say, an
    [Authorization] or a [Host] header. *)
Theorem outbound_header_names req name :
  is_Some (test_headers req !! name) \/ is_Some (stream_headers req !! name) ->
  name = "Content-Type" \/ name = "Accept" \/ x_prefixed name.
Proof.
  intros H.
  destruct (Py.startswith (Py.lower name) "x-") eqn:E.
  { right. right. by apply startswith_lower_x. }
  assert (Hplain : ~ x_prefixed name).
  { intros Hx. apply startswith_lower_x in Hx. congruence. }
  unfold test_headers, stream_headers in H.
  rewrite !fill_headers_plain in H by done.
  destruct (String.eqb name "Content-Type") eqn:Ect;
    [apply String.eqb_eq in Ect; auto|apply String.eqb_neq in Ect].
  destruct (String.eqb name "Accept") eqn:Eacc;
    [apply String.eqb_eq in Eacc; auto|apply String.eqb_neq in Eacc].
  exfalso. rewrite lookup_insert_ne, !lookup_singleton_ne in H by done.
  destruct H as [[? H]|[? H]]; discriminate.
Qed.

Lemma outbound_header_names_witness :
  "Accept" = "Content-Type" \/ "Accept" = "Accept" \/ x_prefixed "Accept".
Proof.
  refine (outbound_header_names (Sample.hello None) "Accept" (or_intror _)).
  vm_compute. by eexists.
Defined.

(** X20: a remote answer with a status that is not 2xx, like a transport
    failure, is reported by the synchronous relay as 502 "Agent
    communication failed" with the message of the exception, and the agent
    is marked unhealthy; other exceptions raised by the call are reported
    as 500. *)
Theorem test_agent_bad_gateway str w agent_id req db agent e :
  Db.scalar_one_or_none (Db.where_id agent_id db) = Value (Some agent) ->
  (Httpx.post (client w) (Agent.url agent)
     (payload "test-1" "message/send" (uuid4 w) (message req))
     (test_headers req) = Raise e
   \/ exists resp,
        Httpx.post (client w) (Agent.url agent)
          (payload "test-1" "message/send" (uuid4 w) (message req))
          (test_headers req) = Value resp
        /\ Httpx.is_success (Httpx.status_code resp) = false
        /\ e = HTTPStatusError (Httpx.status_code resp)) ->
  test_agent str w agent_id req db
  = (if is_HTTPError e
     then HTTPException 502 ("Agent communication failed: " +:+ str e)
     else HTTPException 500 ("Unexpected error: " +:+ str e),
     Db.commit (Agent.set_health false (utcnow w) agent) db).
Proof.
  intros Hsel Hfail. unfold test_agent. rewrite Hsel. simpl.
  destruct Hfail as [->|(resp & -> & Hs & ->)]; simpl.
  - by destruct (is_HTTPError e).
  - unfold Httpx.raise_for_status. by rewrite Hs.
Qed.

Lemma test_agent_bad_gateway_witness :
  test_agent Sample.str
    (Sample.world (Raise Sample.refused) (Sample.not_json 503) Sample.no_stream)
    1 (Sample.hello None) [Sample.echo_agent]
  = (HTTPException 502 "Agent communication failed: Server error for url",
     [Agent.set_health false 1700000000 Sample.echo_agent]).
Proof.
  refine (test_agent_bad_gateway Sample.str
    (Sample.world (Raise Sample.refused) (Sample.not_json 503) Sample.no_stream)
    1 (Sample.hello None) [Sample.echo_agent] Sample.echo_agent
    (HTTPStatusError 503) eq_refl _).
  right. eexists. repeat split; reflexivity.
Defined.

(** * Sessions, users and settings *)

(** ** Sessions *)

(** X21: a session can be looked up from the moment it is created until
    it is deleted, and neither step disturbs any other session. *)
Theorem session_round_trip token user_id (store : gmap string Z) :
  token <> EmptyString ->
  get_user_id_from_session (create_session token user_id store).2 (Some token)
    = Some user_id
  /\ get_user_id_from_session
       (delete_session token (create_session token user_id store).2) (Some token)
     = None
  /\ forall other,
       other <> token ->
       get_user_id_from_session (create_session token user_id store).2 (Some other)
         = get_user_id_from_session store (Some other)
       /\ get_user_id_from_session (delete_session token store) (Some other)
          = get_user_id_from_session store (Some other).
Proof.
  intros Hne. unfold create_session, delete_session. simpl.
  destruct token as [|c rest]; [done|]. simpl.
  split; [apply lookup_insert_eq|]. split; [apply lookup_delete_eq|].
  intros other Hother. destruct other as [|d other']; [done|]. simpl.
  split; [by rewrite lookup_insert_ne|by rewrite lookup_delete_ne].
Qed.

Lemma session_round_trip_witness :
  get_user_id_from_session (create_session "hN3vX0aQ" 7 ∅).2 (Some "hN3vX0aQ") = Some 7.
Proof.
  refine (proj1 (session_round_trip "hN3vX0aQ" 7 ∅ _)). discriminate.
Defined.

Lemma get_user_by_id_found rows user_id row :
  get_user_by_id rows user_id = Value (Some row) ->
  In row rows /\ UserRow.id row = user_id.
Proof.
  unfold get_user_by_id. intros H. apply scalar_one_inv in H.
  assert (Hin : In row (List.filter (fun u => UserRow.id u =? user_id) rows)).
  { rewrite H. by left. }
  apply filter_In in Hin as [Hin Hid]. by apply Z.eqb_eq in Hid.
Qed.

Lemma get_current_user_Return (store : gmap string Z) cookie rows user :
  get_current_user true store cookie rows = Return user ->
  exists token row,
    user = LoggedIn row
    /\ cookie = Some token
    /\ token <> EmptyString
    /\ store !! token = Some (UserRow.id row)
    /\ In row rows
    /\ UserRow.id row <> 0.
Proof.
  unfold get_current_user. simpl.
  destruct cookie as [[|c rest]|]; simpl; try discriminate.
  destruct (store !! String c rest) as [user_id|] eqn:Hs; [|discriminate].
  destruct user_id as [|uid|uid]; [discriminate| |];
    (destruct (get_user_by_id rows _) as [[row|]|e] eqn:Hrow; try discriminate;
     intros [= <-]; apply get_user_by_id_found in Hrow as [Hin Hid];
     exists (String c rest), row; rewrite Hid; repeat split; auto; lia).
Qed.

(** X22: with authentication required, a request is served as a user only
    if its cookie names a live session of that user: the current user is
    always a row of [users], never the anonymous user, and the session
    store maps the cookie to the key of that row. *)
Theorem get_current_user_needs_session (store : gmap string Z) cookie rows user :
  get_current_user true store cookie rows = Return user ->
  exists token row,
    user = LoggedIn row
    /\ cookie = Some token
    /\ token <> EmptyString
    /\ store !! token = Some (UserRow.id row)
    /\ In row rows
    /\ UserRow.id row <> 0.
Proof. apply get_current_user_Return. Qed.

Lemma get_current_user_needs_session_witness :
  exists token row,
    LoggedIn Sample.alice_row = LoggedIn row
    /\ Some "hN3vX0aQ" = Some token
    /\ token <> EmptyString
    /\ ({[ "hN3vX0aQ" := 7 ]} : gmap string Z) !! token = Some (UserRow.id row)
    /\ In row [Sample.bob_row; Sample.alice_row]
    /\ UserRow.id row <> 0.
Proof.
  refine (get_current_user_needs_session {[ "hN3vX0aQ" := 7 ]} (Some "hN3vX0aQ")
            [Sample.bob_row; Sample.alice_row] (LoggedIn Sample.alice_row) _).
  vm_compute. reflexivity.
Defined.

(** X23: whether authentication is on depends on the environment
    variable alone, and only the value "true", in any letter case, or no
    value at all, keeps it on.  With any other value ("1", "yes", the
    empty string, ...) every request, with or without a cookie, is served
    as the anonymous user; with authentication on none ever is. *)
Theorem auth_switch env (store : gmap string Z) cookie rows :
  get_current_user (AUTH_REQUIRED env) store cookie rows = Return AnonymousUser
  <-> exists value, env = Some value /\ Py.lower value <> "true".
Proof.
  unfold AUTH_REQUIRED. split.
  - destruct (String.eqb _ _) eqn:E.
    + intros H. apply get_current_user_Return in H
        as (token & row & Habs & _). discriminate.
    + intros _. apply String.eqb_neq in E.
      destruct env as [value|]; [by exists value|]. by elim E.
  - intros (value & -> & Hne). simpl.
    apply String.eqb_neq in Hne. by rewrite Hne.
Qed.

Example auth_required_unset : AUTH_REQUIRED None = true.
Proof. reflexivity. Qed.

Example auth_required_upper : AUTH_REQUIRED (Some "TRUE") = true.
Proof. reflexivity. Qed.

Example auth_required_one : AUTH_REQUIRED (Some "1") = false.
Proof. reflexivity. Qed.

(** ** Logging in, registering, logging out *)

Lemma get_user_by_username_found rows username row :
  get_user_by_username rows username = Value (Some row) ->
  In row rows /\ UserRow.username row = username.
Proof.
  unfold get_user_by_username. intros H. apply scalar_one_inv in H.
  assert (Hin : In row (List.filter
                          (fun u => String.eqb (UserRow.username u) username) rows)).
  { rewrite H. by left. }
  apply filter_In in Hin as [Hin Hname]. by apply String.eqb_eq in Hname.
Qed.

Lemma filter_user_id_none rows user_id :
  (forall u, In u rows -> UserRow.id u <> user_id) ->
  List.filter (fun u => UserRow.id u =? user_id) rows = [].
Proof.
  induction rows as [|r rows IH]; simpl; [done|]. intros H.
  destruct (UserRow.id r =? user_id) eqn:E.
  - apply Z.eqb_eq in E. exfalso. apply (H r); auto.
  - apply IH. intros u Hu. apply H. by right.
Qed.

Lemma get_user_by_id_unique rows row :
  NoDup (map UserRow.id rows) -> In row rows ->
  get_user_by_id rows (UserRow.id row) = Value (Some row).
Proof.
  unfold get_user_by_id. induction rows as [|r rows IH]; simpl; [done|].
  rewrite NoDup_cons. intros [Hnotin Hnd] [->|Hin].
  - rewrite Z.eqb_refl. rewrite filter_user_id_none; [done|].
    intros u Hu Heq. apply Hnotin. rewrite <- Heq.
    rewrite list_elem_of_In. by apply in_map.
  - destruct (UserRow.id r =? UserRow.id row) eqn:E; [|by apply IH].
    apply Z.eqb_eq in E. exfalso. apply Hnotin. rewrite E.
    rewrite list_elem_of_In. by apply in_map.
Qed.

(** X24: a login that answers with a session cookie has opened a session
    for the user of that name whose stored hash bcrypt accepted: with that
    cookie the next request is served as this user.  The [users] table is
    not touched. *)
Theorem login_opens_session aw username password st url code token max_age st' :
  login aw username password st
    = (Return (RedirectResponse url code (SetCookie token max_age)), st') ->
  NoDup (map UserRow.id (users st)) ->
  Forall (fun u => UserRow.id u <> 0) (users st) ->
  token <> EmptyString ->
  exists row,
    get_current_user true (sessions st') (Some token) (users st')
      = Return (LoggedIn row)
    /\ UserRow.username row = username
    /\ checkpw aw password (UserRow.password_hash row) = Value true
    /\ users st' = users st
    /\ token = token_urlsafe aw.
Proof.
  unfold login. cbv zeta.
  destruct (get_user_by_username (users st) username) as [[row|]|e] eqn:Hrow;
    try discriminate.
  destruct (checkpw aw password (UserRow.password_hash row)) as [[]|e] eqn:Hcheck;
    try discriminate.
  simpl. intros [= _ _ <- _ <-] Hnd Hpos Hne.
  apply get_user_by_username_found in Hrow as [Hin Hname].
  exists row. repeat split; try done.
  unfold get_current_user. simpl.
  destruct (token_urlsafe aw) as [|c rest] eqn:Htok; [done|]. simpl.
  rewrite lookup_insert_eq.
  rewrite Forall_forall in Hpos. specialize (Hpos row).
  rewrite list_elem_of_In in Hpos. specialize (Hpos Hin).
  rewrite (get_user_by_id_unique _ _ Hnd Hin).
  by destruct (UserRow.id row).
Qed.

Lemma login_opens_session_witness :
  exists row,
    get_current_user true {[ "hN3vX0aQ" := 1 ]} (Some "hN3vX0aQ")
      [Sample.bob_row; Sample.alice_row] = Return (LoggedIn row)
    /\ UserRow.username row = "bob".
Proof.
  assert (Hnd : NoDup (map UserRow.id [Sample.bob_row; Sample.alice_row])).
  { simpl. apply NoDup_cons. split; [|apply NoDup_singleton].
    rewrite list_elem_of_singleton. discriminate. }
  assert (Hpos : Forall (fun u => UserRow.id u <> 0) [Sample.bob_row; Sample.alice_row]).
  { repeat constructor; simpl; lia. }
  destruct (login_opens_session Sample.auth "bob" "hunter2"
              {| users := [Sample.bob_row; Sample.alice_row]; sessions := ∅ |}
              "/" 302 "hN3vX0aQ" (86400 * 7)
              {| users := [Sample.bob_row; Sample.alice_row];
                 sessions := {[ "hN3vX0aQ" := 1 ]} |}
              eq_refl Hnd Hpos ltac:(discriminate))
    as (row & Hcur & Hname & _).
  exists row. split; assumption.
Defined.

(** X25: a login opens no session unless bcrypt accepts the password for
    a stored hash of that username: if no row of that name has such a
    hash, the state is unchanged and the answer is not a redirect. *)
Theorem login_rejected aw username password st :
  (forall row, In row (users st) -> UserRow.username row = username ->
               checkpw aw password (UserRow.password_hash row) <> Value true) ->
  (login aw username password st).2 = st
  /\ forall url code cookie,
       (login aw username password st).1 <> Return (RedirectResponse url code cookie).
Proof.
  intros Hbad. unfold login. cbv zeta.
  destruct (get_user_by_username (users st) username) as [[row|]|e] eqn:Hrow;
    try (by split).
  apply get_user_by_username_found in Hrow as [Hin Hname].
  specialize (Hbad row Hin Hname).
  destruct (checkpw aw password (UserRow.password_hash row)) as [[]|e];
    by split.
Qed.

Lemma login_rejected_witness :
  (login Sample.auth "bob" "letmein"
     {| users := [Sample.bob_row; Sample.alice_row]; sessions := ∅ |}).2
  = {| users := [Sample.bob_row; Sample.alice_row]; sessions := ∅ |}.
Proof.
  refine (proj1 (login_rejected Sample.auth "bob" "letmein"
    {| users := [Sample.bob_row; Sample.alice_row]; sessions := ∅ |} _)).
  intros row [<-|[<-|[]]] Hname; vm_compute; discriminate.
Defined.

Lemma get_user_by_username_taken rows username row :
  In row rows -> UserRow.username row = username ->
  get_user_by_username rows username <> Value None.
Proof.
  intros Hin Hname H. unfold get_user_by_username in H.
  apply scalar_none_inv in H.
  assert (Hrow : In row (List.filter
                           (fun u => String.eqb (UserRow.username u) username) rows)).
  { apply filter_In. split; [done|]. by apply String.eqb_eq. }
  by rewrite H in Hrow.
Qed.

(** X26: registration of a user is refused, with nothing created, when
    the username has fewer than 3 characters, the password fewer than 4,
    or the username is taken: the table and the sessions are unchanged and
    the answer is not a redirect. *)
Theorem register_rejected aw username password st :
  py_len username < 3
  \/ py_len password < 4
  \/ (exists row, In row (users st) /\ UserRow.username row = username) ->
  (register aw username password st).2 = st
  /\ forall url code cookie,
       (register aw username password st).1
       <> Return (RedirectResponse url code cookie).
Proof.
  intros Hbad. unfold register.
  destruct (py_len username <? 3) eqn:Hu; [by split|].
  destruct (py_len password <? 4) eqn:Hp; [by split|].
  apply Z.ltb_ge in Hu, Hp.
  destruct Hbad as [?|[?|(row & Hin & Hname)]]; [lia|lia|].
  pose proof (get_user_by_username_taken _ _ _ Hin Hname) as Htaken.
  destruct (get_user_by_username (users st) username) as [[found|]|e]; by split.
Qed.

Example py_len_counts_characters :
  py_len "ab" = 2 /\ py_len ("日本" : string) = 2 /\ String.length "日本" = 6%nat.
Proof. repeat split. Qed.

Lemma register_rejected_witness :
  (register Sample.auth "日本" "correct horse" {| users := []; sessions := ∅ |}).2
  = {| users := []; sessions := ∅ |}.
Proof.
  refine (proj1 (register_rejected Sample.auth "日本" "correct horse"
                   {| users := []; sessions := ∅ |} _)).
  left. vm_compute. reflexivity.
Defined.

Lemma next_user_id_fresh rows u : In u rows -> UserRow.id u < next_user_id rows.
Proof.
  unfold next_user_id. induction rows as [|r rows IH]; simpl; [done|].
  intros [->|Hin]; [lia|]. specialize (IH Hin). lia.
Qed.

Lemma next_user_id_positive rows : 0 < next_user_id rows.
Proof.
  unfold next_user_id. induction rows as [|r rows IH]; simpl; lia.
Qed.

(** X27: a registration that answers with a session cookie has appended
    exactly one row to [users] (fresh key, the requested name, the hash
    bcrypt returned for the password, an empty configuration) and opened a
    session for it: with that cookie the next request is served as the
    new user.  It happens only for a name of at least 3 characters that
    was free and a password of at least 4. *)
Theorem register_opens_session aw username password st url code token max_age st' :
  register aw username password st
    = (Return (RedirectResponse url code (SetCookie token max_age)), st') ->
  token <> EmptyString ->
  exists row,
    users st' = (users st ++ [row])%list
    /\ UserRow.id row = next_user_id (users st)
    /\ UserRow.username row = username
    /\ hashpw aw password (gensalt aw) = Value (UserRow.password_hash row)
    /\ UserRow.api_config row = Some []
    /\ get_current_user true (sessions st') (Some token) (users st')
       = Return (LoggedIn row)
    /\ 3 <= py_len username
    /\ 4 <= py_len password
    /\ (forall other, In other (users st) -> UserRow.username other <> username).
Proof.
  unfold register.
  destruct (py_len username <? 3) eqn:Hu; [discriminate|].
  destruct (py_len password <? 4) eqn:Hp; [discriminate|].
  apply Z.ltb_ge in Hu, Hp.
  destruct (get_user_by_username (users st) username) as [[found|]|e] eqn:Hfree;
    try discriminate.
  unfold create_user.
  destruct (hashpw aw password (gensalt aw)) as [hash|e] eqn:Hhash;
    simpl; [|discriminate].
  intros [= _ _ <- _ <-] Hne. eexists. simpl.
  repeat split; try done.
  - unfold get_current_user. simpl.
    destruct (token_urlsafe aw) as [|c rest]; [done|]. simpl.
    rewrite lookup_insert_eq.
    unfold get_user_by_id. rewrite List.filter_app. simpl.
    rewrite Z.eqb_refl. rewrite filter_user_id_none.
    + simpl. pose proof (next_user_id_positive (users st)).
      by destruct (next_user_id (users st)).
    + intros u Hu'. apply next_user_id_fresh in Hu'. lia.
  - intros other Hin Hname.
    by apply (get_user_by_username_taken _ _ _ Hin Hname).
Qed.

Lemma register_opens_session_witness :
  exists row,
    [Sample.bob_row; row] = ([Sample.bob_row] ++ [row])%list
    /\ UserRow.id row = 2
    /\ UserRow.username row = "carol".
Proof.
  destruct (register_opens_session Sample.auth "carol" "s3cret"
              {| users := [Sample.bob_row]; sessions := ∅ |}
              "/" 302 "hN3vX0aQ" (86400 * 7) _ eq_refl ltac:(discriminate))
    as (row & Husers & Hid & Hname & _).
  exists row. simpl in Husers. injection Husers as <-.
  repeat split.
Defined.

(** X28: logging out closes the session of the cookie: with
    authentication required, the same cookie is refused with 401
    afterwards.  Other sessions and the [users] table are untouched. *)
Theorem logout_closes_session token st :
  token <> EmptyString ->
  (logout (Some token) st).1 = Return (RedirectResponse "/login" 302 DeleteCookie)
  /\ get_current_user true (sessions (logout (Some token) st).2) (Some token)
       (users (logout (Some token) st).2)
     = HTTPException 401 "Not authenticated"
  /\ users (logout (Some token) st).2 = users st
  /\ forall other,
       other <> token ->
       sessions (logout (Some token) st).2 !! other = sessions st !! other.
Proof.
  intros Hne. destruct token as [|c rest]; [done|].
  unfold logout, delete_session, get_current_user. simpl.
  rewrite lookup_delete_eq. repeat split.
  intros other Hother. by rewrite lookup_delete_ne.
Qed.

Lemma logout_closes_session_witness :
  get_current_user true
    (sessions (logout (Some "hN3vX0aQ")
                 {| users := [Sample.bob_row]; sessions := {[ "hN3vX0aQ" := 1 ]} |}).2)
    (Some "hN3vX0aQ")
    (users (logout (Some "hN3vX0aQ")
              {| users := [Sample.bob_row]; sessions := {[ "hN3vX0aQ" := 1 ]} |}).2)
  = HTTPException 401 "Not authenticated".
Proof.
  refine (proj1 (proj2 (logout_closes_session "hN3vX0aQ"
    {| users := [Sample.bob_row]; sessions := {[ "hN3vX0aQ" := 1 ]} |} _))).
  discriminate.
Defined.

(** ** Settings *)

Lemma filter_user_id_map (g : UserRow.t -> UserRow.t) rows user_id :
  (forall r, UserRow.id (g r) = UserRow.id r) ->
  List.filter (fun u => UserRow.id u =? user_id) (map g rows)
  = map g (List.filter (fun u => UserRow.id u =? user_id) rows).
Proof.
  intros Hg. induction rows as [|r rows IH]; simpl; [done|].
  rewrite Hg. destruct (UserRow.id r =? user_id); simpl; by rewrite IH.
Qed.

Lemma filter_config_truthy config :
  Forall (fun kv => py_truthy kv.2 = true) (filter_config config).
Proof.
  unfold filter_config. apply Forall_forall. intros kv Hkv.
  rewrite list_elem_of_In in Hkv. by apply filter_In in Hkv as [_ ?].
Qed.

(** X29: saving settings replaces the stored configuration of the
    current user by exactly the fields of the request that are set and
    not empty (nulls, empty strings and an empty header mapping are
    dropped, whatever was stored before), and reading the settings back
    returns those fields.  Name, password hash and the rows of other
    users are untouched. *)
Theorem save_then_get_settings rows row config :
  NoDup (map UserRow.id rows) ->
  In row rows ->
  exists row',
    get_user_by_id (save_settings (LoggedIn row) config rows).2 (UserRow.id row)
      = Value (Some row')
    /\ get_settings (LoggedIn row') = Return (JObject (filter_config config))
    /\ Forall (fun kv => py_truthy kv.2 = true) (filter_config config)
    /\ UserRow.username row' = UserRow.username row
    /\ UserRow.password_hash row' = UserRow.password_hash row
    /\ forall other,
         other <> UserRow.id row ->
         get_user_by_id (save_settings (LoggedIn row) config rows).2 other
         = get_user_by_id rows other.
Proof.
  intros Hnd Hin.
  pose proof (get_user_by_id_unique rows row Hnd Hin) as Hrow.
  apply scalar_one_inv in Hrow.
  set (g := fun r : UserRow.t =>
              if UserRow.id r =? UserRow.id row
              then UserRow.set_api_config (filter_config config) row else r).
  assert (Hg : forall r, UserRow.id (g r) = UserRow.id r).
  { intros r. unfold g. destruct (UserRow.id r =? UserRow.id row) eqn:E; [|done].
    apply Z.eqb_eq in E. by rewrite E. }
  exists (UserRow.set_api_config (filter_config config) row).
  unfold save_settings. cbv zeta. simpl. fold g.
  split; [|split; [|split; [|split; [|split]]]]; try done.
  - unfold get_user_by_id. rewrite (filter_user_id_map g) by done.
    rewrite Hrow. simpl. unfold g. by rewrite Z.eqb_refl.
  - unfold get_settings. simpl. by destruct (filter_config config).
  - apply filter_config_truthy.
  - intros other Hother. unfold get_user_by_id.
    rewrite (filter_user_id_map g) by done. f_equal.
    rewrite <- (map_id (List.filter _ rows)) at 2.
    apply map_ext_in. intros r Hr. apply filter_In in Hr as [_ Hr].
    apply Z.eqb_eq in Hr. unfold g.
    destruct (UserRow.id r =? UserRow.id row) eqn:E; [|done].
    apply Z.eqb_eq in E. lia.
Qed.

Lemma save_then_get_settings_witness :
  exists row',
    get_user_by_id
      (save_settings (LoggedIn Sample.bob_row) Sample.only_model
         [Sample.bob_row; Sample.alice_row]).2 1
    = Value (Some row')
    /\ get_settings (LoggedIn row')
       = Return (JObject [("openai_model", JString "local-llm")]).
Proof.
  assert (Hnd : NoDup (map UserRow.id [Sample.bob_row; Sample.alice_row])).
  { simpl. apply NoDup_cons. split; [|apply NoDup_singleton].
    rewrite list_elem_of_singleton. discriminate. }
  destruct (save_then_get_settings [Sample.bob_row; Sample.alice_row]
              Sample.bob_row Sample.only_model Hnd (or_introl eq_refl))
    as (row' & Hrow & Hget & _).
  exists row'. split; assumption.
Defined.

(** X30: without authentication the settings cannot be used.  When the
    environment turns authentication off, every request is served as the
    anonymous user, for whom reading the settings lets an
    [AttributeError] escape (the anonymous user has no [api_config]),
    and saving them answers "ok" while storing nothing. *)
Theorem settings_without_auth env (store : gmap string Z) cookie rows config :
  AUTH_REQUIRED env = false ->
  exists user,
    get_current_user (AUTH_REQUIRED env) store cookie rows = Return user
    /\ get_settings user = Uncaught AttributeError
    /\ is_Return (save_settings user config rows).1 = true
    /\ (save_settings user config rows).2 = rows.
Proof.
  intros ->. by exists AnonymousUser.
Qed.

Lemma settings_without_auth_witness :
  exists user,
    get_current_user (AUTH_REQUIRED (Some "false")) ∅ None [Sample.bob_row]
      = Return user
    /\ get_settings user = Uncaught AttributeError.
Proof.
  destruct (settings_without_auth (Some "false") ∅ None [Sample.bob_row]
              Sample.only_model eq_refl) as (user & Hcur & Hget & _).
  exists user. split; assumption.
Defined.
